(** * The [simplify] plugin of the minifier: a shallow embedding

    The source is one file, [src/simplify-plugin/index.js]: a table of
    visitor hooks over a JavaScript syntax tree, two helper functions
    ([flipNegation], [toMultipleSequenceExpressions]) and one constant
    ([VOID_0]).  Each hook is embedded as a function on trees (and, where the
    hook reads or edits its siblings, on the list that contains the node). *)

From Stdlib Require Import ZArith Bool Lia.
From stdpp Require Import base option list strings.

Local Open Scope string_scope.
Local Open Scope list_scope.

(** ** Syntax trees

    A tree node is a JavaScript object with a [type] tag; a child slot holds a
    node, a list of nodes, or nothing ([null]/[undefined]).  [Null] stands for
    the latter, so that the tests [if (node.alternate)] and [!seq] of the
    source are tests against [Null].  The [prefix] of a unary expression is
    the third argument of [t.unaryExpression]: [None] where the source leaves
    it out.  A [for]-[in] or [for]-[of] loop has no [init] field; the [init]
    of these two kinds is the property of that name which the second hook of
    [For] writes on the node, [Null] in a tree that comes from the parser. *)

Inductive literal : Type :=
| LBoolean (b : bool)
| LNumber (n : Z)
| LString (s : string)
| LNull.

#[warnings="-register-all"]
Inductive node : Type :=
| Null
| Identifier (name : string)
| Literal (value : literal)
| UnaryExpression (operator : string) (argument : node) (prefix : option bool)
| BinaryExpression (operator : string) (left right : node)
| LogicalExpression (operator : string) (left right : node)
| ConditionalExpression (test consequent alternate : node)
| SequenceExpression (expressions : list node)
| CallExpression (callee : node) (arguments : list node)
| MemberExpression (object property : node) (computed : bool)
| Property (key value : node) (computed : bool)
| FunctionExpression (id : node) (params : list node) (body : node)
| FunctionDeclaration (id : node) (params : list node) (body : node)
| VariableDeclarator (id init : node)
| VariableDeclaration (kind : string) (declarations : list node)
| ExpressionStatement (expression : node)
| ReturnStatement (argument : node)
| IfStatement (test consequent alternate : node)
| ForStatement (init test update body : node)
| ForInStatement (left right body : node) (init : node)
| ForOfStatement (left right body : node) (init : node)
| WhileStatement (test body : node)
| BlockStatement (body : list node)
| Program (body : list node)
| TryStatement (block handler finalizer : node)
| CatchClause (param body : node)
| OtherExpression (type : string) (children : list node)
| OtherStatement (type : string) (children : list node).

#[global] Instance node_inhabited : Inhabited node := populate Null.

#[global] Instance literal_eq_dec : EqDecision literal.
Proof. solve_decision. Defined.

(** Structural equality of trees, as a boolean. *)
Fixpoint node_eqb (a b : node) {struct a} : bool :=
  let list_eqb :=
    fix list_eqb (xs ys : list node) {struct xs} : bool :=
      match xs, ys with
      | [], [] => true
      | x :: xs', y :: ys' => node_eqb x y && list_eqb xs' ys'
      | _, _ => false
      end in
  match a, b with
  | Null, Null => true
  | Identifier n1, Identifier n2 => String.eqb n1 n2
  | Literal v1, Literal v2 => bool_decide (v1 = v2)
  | UnaryExpression o1 a1 p1, UnaryExpression o2 a2 p2 =>
      String.eqb o1 o2 && node_eqb a1 a2 && bool_decide (p1 = p2)
  | BinaryExpression o1 l1 r1, BinaryExpression o2 l2 r2 =>
      String.eqb o1 o2 && node_eqb l1 l2 && node_eqb r1 r2
  | LogicalExpression o1 l1 r1, LogicalExpression o2 l2 r2 =>
      String.eqb o1 o2 && node_eqb l1 l2 && node_eqb r1 r2
  | ConditionalExpression t1 c1 a1, ConditionalExpression t2 c2 a2 =>
      node_eqb t1 t2 && node_eqb c1 c2 && node_eqb a1 a2
  | SequenceExpression e1, SequenceExpression e2 => list_eqb e1 e2
  | CallExpression c1 a1, CallExpression c2 a2 => node_eqb c1 c2 && list_eqb a1 a2
  | MemberExpression o1 p1 c1, MemberExpression o2 p2 c2 =>
      node_eqb o1 o2 && node_eqb p1 p2 && Bool.eqb c1 c2
  | Property k1 v1 c1, Property k2 v2 c2 =>
      node_eqb k1 k2 && node_eqb v1 v2 && Bool.eqb c1 c2
  | FunctionExpression i1 p1 b1, FunctionExpression i2 p2 b2 =>
      node_eqb i1 i2 && list_eqb p1 p2 && node_eqb b1 b2
  | FunctionDeclaration i1 p1 b1, FunctionDeclaration i2 p2 b2 =>
      node_eqb i1 i2 && list_eqb p1 p2 && node_eqb b1 b2
  | VariableDeclarator i1 n1, VariableDeclarator i2 n2 => node_eqb i1 i2 && node_eqb n1 n2
  | VariableDeclaration k1 d1, VariableDeclaration k2 d2 => String.eqb k1 k2 && list_eqb d1 d2
  | ExpressionStatement e1, ExpressionStatement e2 => node_eqb e1 e2
  | ReturnStatement a1, ReturnStatement a2 => node_eqb a1 a2
  | IfStatement t1 c1 a1, IfStatement t2 c2 a2 =>
      node_eqb t1 t2 && node_eqb c1 c2 && node_eqb a1 a2
  | ForStatement i1 t1 u1 b1, ForStatement i2 t2 u2 b2 =>
      node_eqb i1 i2 && node_eqb t1 t2 && node_eqb u1 u2 && node_eqb b1 b2
  | ForInStatement l1 r1 b1 i1, ForInStatement l2 r2 b2 i2 =>
      node_eqb l1 l2 && node_eqb r1 r2 && node_eqb b1 b2 && node_eqb i1 i2
  | ForOfStatement l1 r1 b1 i1, ForOfStatement l2 r2 b2 i2 =>
      node_eqb l1 l2 && node_eqb r1 r2 && node_eqb b1 b2 && node_eqb i1 i2
  | WhileStatement t1 b1, WhileStatement t2 b2 => node_eqb t1 t2 && node_eqb b1 b2
  | BlockStatement b1, BlockStatement b2 => list_eqb b1 b2
  | Program b1, Program b2 => list_eqb b1 b2
  | TryStatement b1 h1 f1, TryStatement b2 h2 f2 =>
      node_eqb b1 b2 && node_eqb h1 h2 && node_eqb f1 f2
  | CatchClause p1 b1, CatchClause p2 b2 => node_eqb p1 p2 && node_eqb b1 b2
  | OtherExpression t1 c1, OtherExpression t2 c2 => String.eqb t1 t2 && list_eqb c1 c2
  | OtherStatement t1 c1, OtherStatement t2 c2 => String.eqb t1 t2 && list_eqb c1 c2
  | _, _ => false
  end.

(** ** Type tests of the tree library ([t.isX])

    Each test is false on [Null], as the library's tests are on
    [null]/[undefined]. *)

Definition truthy (n : node) : bool :=
  match n with Null => false | _ => true end.

Definition isExpression (n : node) : bool :=
  match n with
  | Identifier _ | Literal _ | UnaryExpression _ _ _ | BinaryExpression _ _ _
  | LogicalExpression _ _ _ | ConditionalExpression _ _ _ | SequenceExpression _
  | CallExpression _ _ | MemberExpression _ _ _ | FunctionExpression _ _ _
  | OtherExpression _ _ => true
  | _ => false
  end.

(** [t.isStatement]; a program and the clause of a [catch] are none. *)
Definition isStatement (n : node) : bool :=
  match n with
  | FunctionDeclaration _ _ _ | VariableDeclaration _ _ | ExpressionStatement _
  | ReturnStatement _ | IfStatement _ _ _ | ForStatement _ _ _ _
  | ForInStatement _ _ _ _ | ForOfStatement _ _ _ _ | WhileStatement _ _
  | BlockStatement _ | TryStatement _ _ _ | OtherStatement _ _ => true
  | _ => false
  end.

Definition isLiteral (n : node) : bool :=
  match n with Literal _ => true | _ => false end.

Definition isSequenceExpression (n : node) : bool :=
  match n with SequenceExpression _ => true | _ => false end.

Definition isFunctionExpression (n : node) : bool :=
  match n with FunctionExpression _ _ _ => true | _ => false end.

Definition isFunctionDeclaration (n : node) : bool :=
  match n with FunctionDeclaration _ _ _ => true | _ => false end.

Definition isFunction (n : node) : bool :=
  isFunctionExpression n || isFunctionDeclaration n.

Definition isBinaryExpression (n : node) : bool :=
  match n with BinaryExpression _ _ _ => true | _ => false end.

Definition isVariableDeclaration (n : node) : bool :=
  match n with VariableDeclaration _ _ => true | _ => false end.

Definition isExpressionStatement (n : node) : bool :=
  match n with ExpressionStatement _ => true | _ => false end.

Definition isReturnStatement (n : node) : bool :=
  match n with ReturnStatement _ => true | _ => false end.

Definition isIfStatement (n : node) : bool :=
  match n with IfStatement _ _ _ => true | _ => false end.

Definition isForStatement (n : node) : bool :=
  match n with ForStatement _ _ _ _ => true | _ => false end.

Definition isBlockStatement (n : node) : bool :=
  match n with BlockStatement _ => true | _ => false end.

Definition isTryStatement (n : node) : bool :=
  match n with TryStatement _ _ _ => true | _ => false end.

Definition isCatchClause (n : node) : bool :=
  match n with CatchClause _ _ => true | _ => false end.

(** [t.isUnaryExpression(n, { operator: op })] and
    [t.isIdentifier(n, { name: s })]. *)
Definition isUnaryExpressionWith (op : string) (n : node) : bool :=
  match n with UnaryExpression o _ _ => String.eqb o op | _ => false end.

Definition isIdentifierNamed (s : string) (n : node) : bool :=
  match n with Identifier x => String.eqb x s | _ => false end.

(** Field reads; a field a node does not have reads as [undefined]. *)
Definition argument_of (n : node) : node :=
  match n with
  | UnaryExpression _ a _ => a
  | ReturnStatement a => a
  | _ => Null
  end.

Definition expression_of (n : node) : node :=
  match n with ExpressionStatement e => e | _ => Null end.

Definition kind_of (n : node) : string :=
  match n with VariableDeclaration k _ => k | _ => "" end.

(** [a || b] of the source on two nodes. *)
Definition orElse (a b : node) : node := if truthy a then a else b.

(** [t.EQUALITY_BINARY_OPERATORS] *)
Definition EQUALITY_BINARY_OPERATORS : list string := ["=="; "==="; "!="; "!=="].

Definition isEqualityOperator (op : string) : bool :=
  existsb (String.eqb op) EQUALITY_BINARY_OPERATORS.

(** [const VOID_0 = t.unaryExpression('void', t.literal(0), true)] *)
Definition VOID_0 : node := UnaryExpression "void" (Literal (LNumber 0)) (Some true).

(** ** [flipNegation]

    Works on any node with [test], [consequent] and [alternate] fields, that
    is on conditional expressions and on [if] statements.  The two operator
    tests are sequential in the source; after the first has set the operator
    to [===] the second cannot match. *)

Definition flipNegationFields (test consequent alternate : node) : node * node * node :=
  if negb (truthy consequent) || negb (truthy alternate) then (test, consequent, alternate)
  else
    match test with
    | BinaryExpression operator l r =>
        if String.eqb operator "!==" then (BinaryExpression "===" l r, alternate, consequent)
        else if String.eqb operator "!=" then (BinaryExpression "==" l r, alternate, consequent)
        else (test, consequent, alternate)
    | UnaryExpression operator argument _ =>
        if String.eqb operator "!" then (argument, alternate, consequent)
        else (test, consequent, alternate)
    | _ => (test, consequent, alternate)
    end.

Definition flipNegation (n : node) : node :=
  match n with
  | ConditionalExpression test consequent alternate =>
      let '(test, consequent, alternate) := flipNegationFields test consequent alternate in
      ConditionalExpression test consequent alternate
  | IfStatement test consequent alternate =>
      let '(test, consequent, alternate) := flipNegationFields test consequent alternate in
      IfStatement test consequent alternate
  | _ => n
  end.

(** ** The sequence folder, [toMultipleSequenceExpressions] *)

(** The value of [seq] computed from [exprs], at the end of [convert] and in
    [bail]: the only element, a sequence expression, or [undefined]. *)
Definition seqOf (exprs : list node) : node :=
  match exprs with
  | [] => Null
  | [e] => e
  | _ => SequenceExpression exprs
  end.

(** The object [convert] returns: [{ seq }] or
    [{ seq, bailed: true, bailedAtIndex }]. *)
Inductive converted : Type :=
| Done (seq : node)
| Bailed (seq : node) (bailedAtIndex : nat).

Definition seq (c : converted) : node :=
  match c with Done s | Bailed s _ => s end.

Definition bailed (c : converted) : bool :=
  match c with Done _ => false | Bailed _ _ => true end.

(** One turn of the loop of [convert] on [nodes[i]]: [Some e] when the turn
    ends in [exprs.push(e)], [None] when it ends in [return bail()].  The
    recursive calls [convert([node.consequent])] and [convert([node.alternate])]
    are on one-element lists, where [convert] bails exactly when its only turn
    does and otherwise returns what that turn pushed; [convert(node.body)] is
    the loop itself, written here as a local [fix] so that the recursion is
    structural (see [convertNode_if] and [convertNode_block] below). *)
Fixpoint convertNode (n : node) : option node :=
  if isExpression n then Some n
  else
    match n with
    | ExpressionStatement expression => Some expression
    | IfStatement test c a =>
        match (if truthy c then convertNode c else Some Null) with
        | None => None
        | Some consequent =>
            match (if truthy a then convertNode a else Some Null) with
            | None => None
            | Some alternate =>
                if negb (truthy alternate) then
                  Some (LogicalExpression "&&" test consequent)
                else if negb (truthy consequent) then
                  Some (LogicalExpression "||" test alternate)
                else
                  Some (ConditionalExpression test consequent alternate)
            end
        end
    | BlockStatement body =>
        (fix loop (nodes exprs : list node) {struct nodes} : option node :=
           match nodes with
           | [] => Some (seqOf exprs)
           | n' :: rest =>
               match convertNode n' with
               | None => None
               | Some e => loop rest (exprs ++ [e])
               end
           end) body []
    | _ => None
    end.

(** [convert(nodes)], from turn [i] on with [exprs] accumulated so far. *)
Fixpoint convertFrom (nodes exprs : list node) (i : nat) : converted :=
  match nodes with
  | [] => Done (seqOf exprs)
  | n :: rest =>
      match convertNode n with
      | None => Bailed (seqOf exprs) i
      | Some e => convertFrom rest (exprs ++ [e]) (S i)
      end
  end.

Definition convert (nodes : list node) : converted := convertFrom nodes [] 0.

(** The [do ... while (bailed)] loop of [toMultipleSequenceExpressions].
    Every turn but the last drops at least one statement, so the loop makes at
    most [length statements + 1] turns; [fuel] bounds the number of turns and
    [None] is returned only when it is too small. *)
Fixpoint foldLoop (fuel : nat) (statements retStatements : list node)
  : option (list node) :=
  match fuel with
  | O => None
  | S fuel' =>
      let res := convert statements in
      let retStatements :=
        if truthy (seq res) then retStatements ++ [ExpressionStatement (seq res)]
        else retStatements in
      match res with
      | Done _ => Some retStatements
      | Bailed _ bailedAtIndex =>
          let blocker := default Null (statements !! bailedAtIndex) in
          let retStatements :=
            if truthy blocker then retStatements ++ [blocker] else retStatements in
          let statements := drop (S bailedAtIndex) statements in
          match statements with
          | [] => Some retStatements
          | _ => foldLoop fuel' statements retStatements
          end
      end
  end.

Definition toMultipleSequenceExpressions (statements : list node) : list node :=
  default [] (foldLoop (S (length statements)) statements []).

(** ** Paths

    Modelled from the spec: the path handle (spec 4.2) belongs to the host
    framework and is not in [src/]; the hooks use its sibling access, removal
    and insertion.  A hook receives the node and, as [this], a path: the node's
    place in its container.  For a node that sits in a list, [container] is that list and
    [key] the node's index; for a node in a single child slot, [container] is
    the one-element list holding it, [key] is 0 and [inList] is false, so that
    every sibling lookup finds nothing, as [container[key + 1]] does in the
    source when [key] is a field name.  [ancestors] lists the nodes of
    [parentPath], [parentPath.parentPath], ... and [field] names the field of
    the parent that holds the node or its list. *)

Record path : Type := Path {
  container : list node;
  key : nat;
  inList : bool;
  ancestors : list node;
  removed : bool;
  field : string
}.

(** The path with its container and key changed. *)
Definition moved (p : path) (c : list node) (k : nat) : path :=
  Path c k (inList p) (ancestors p) (removed p) (field p).

Definition nodeAt (p : path) : node := default Null (container p !! key p).

Definition parent (p : path) : node := default Null (ancestors p !! 0).

(** Modelled from the spec: sibling access of the path handle,
    [this.getSibling(k).node]; out of range it finds nothing. *)
Definition getSibling (p : path) (k : nat) : node := default Null (container p !! k).

(** Modelled from the spec: [this.getSibling(this.key - 1).node]; index [-1]
    holds nothing. *)
Definition getPrevSibling (p : path) : node :=
  match key p with
  | O => Null
  | S k => getSibling p k
  end.

(** Writing the (mutated or replaced) node back into its slot. *)
Definition setNode (p : path) (n : node) : path :=
  moved p (<[key p := n]> (container p)) (key p).

(** Modelled from the spec: removal through the path handle,
    [this.getSibling(k).dangerouslyRemove()] for a sibling at index [k] and
    [this.dangerouslyRemove()] when [k] is [key p]: the element leaves the
    list and the later ones shift left, the path following its node. *)
Definition dangerouslyRemove (k : nat) (p : path) : path :=
  Path (delete k (container p))
       (if decide (k < key p) then pred (key p) else key p)
       (inList p) (ancestors p)
       (if decide (k = key p) then true else removed p)
       (field p).

(** Modelled from the spec: insertion through the path handle,
    [this.insertAfter(nodes)]; in a list the nodes are spliced in after the
    node.  The spec does not say what becomes of a statement in a single slot,
    which has no list to grow; here the slot receives a block holding the node
    followed by the inserted ones. *)
Definition insertAfter (nodes : list node) (p : path) : path :=
  if inList p then
    moved p (take (S (key p)) (container p) ++ nodes ++ drop (S (key p)) (container p)) (key p)
  else
    moved p (<[key p := BlockStatement (default Null (container p !! key p) :: nodes)]>
               (container p))
          (key p).

(** What a hook leaves behind: the path with its container as edited, the
    node the hook returned ([Null] when it returned nothing) and whether it
    called [this.visit()]. *)
Record outcome : Type := Outcome {
  after : path;
  returned : node;
  revisit : bool
}.

Definition nothing (p : path) : outcome := Outcome p Null false.
Definition returning (p : path) (n : node) : outcome := Outcome p n false.

(** ** The hooks

    A hook registered under [enter] or [exit] keeps its place in the name
    ([BinaryExpression_enter_0] is [BinaryExpression.enter[0]]); a hook
    registered as a bare function is named [_hook].  A hook that edits its
    node in place is given as the node after the hook, one that returns a
    replacement as the node returned ([Null] when it returns nothing). *)

Section Hooks.

(** The predicates the plugin asks of its environment.  In the patterns
    below [l] and [r] bind the [left] and [right] fields. *)
Variable isValidIdentifier : string -> bool.
Variable isPure : node -> bool.
Variable baseTypeStrictlyMatches : node -> node -> bool.
Variable isCompletionRecord : path -> bool.

(** [ReferencedIdentifier(node)]: returns the replacement. *)
Definition ReferencedIdentifier (n : node) : node :=
  if isIdentifierNamed "undefined" n then VOID_0 else Null.

(** [t.isLiteral(key) && t.isValidIdentifier(key.value)]; a value that is
    not a string is not a valid identifier. *)
Definition literalIdentifier (n : node) : option string :=
  match n with
  | Literal (LString s) => if isValidIdentifier s then Some s else None
  | _ => None
  end.

(** [Property.exit(node)]: the node after the hook. *)
Definition Property_exit (n : node) : node :=
  match n with
  | Property key value computed =>
      match literalIdentifier key with
      | Some s => Property (Identifier s) value false
      | None => n
      end
  | _ => n
  end.

(** [MemberExpression.exit(node)]: the node after the hook. *)
Definition MemberExpression_exit (n : node) : node :=
  match n with
  | MemberExpression object prop computed =>
      match computed, literalIdentifier prop with
      | true, Some s => MemberExpression object (Identifier s) false
      | _, _ => n
      end
  | _ => n
  end.

(** [CallExpression(node, parent)]: returns the replacement. *)
Definition CallExpression_hook (n parent : node) : node :=
  match n with
  | CallExpression callee arguments =>
      if isIdentifierNamed "Number" callee && bool_decide (length arguments = 1) then
        UnaryExpression "+" (default Null (arguments !! 0)) (Some true)
      else if isIdentifierNamed "String" callee && bool_decide (length arguments = 1) then
        BinaryExpression "+" (default Null (arguments !! 0)) (Literal (LString ""))
      else if isFunctionExpression callee
              && (isExpressionStatement parent || isSequenceExpression parent) then
        CallExpression (UnaryExpression "!" callee None) arguments
      else Null
  | _ => Null
  end.

(** [LogicalExpression(node)]: the node after the hook. *)
Definition LogicalExpression_hook (n : node) : node :=
  match n with
  | LogicalExpression operator l r =>
      if String.eqb operator "&&" && isUnaryExpressionWith "!" l then
        LogicalExpression "||" (argument_of l) r
      else n
  | _ => n
  end.

(** [Literal(node)]: returns the replacement; [+!value] is 0 for [true]
    and 1 for [false]. *)
Definition Literal_hook (n : node) : node :=
  match n with
  | Literal (LBoolean value) =>
      UnaryExpression "!" (Literal (LNumber (if value then 0 else 1))) (Some true)
  | _ => Null
  end.

(** [BinaryExpression.enter[0]]: the node after the hook. *)
Definition BinaryExpression_enter_0 (n : node) : node :=
  match n with
  | BinaryExpression operator l r =>
      if isEqualityOperator operator && isPure r then
        BinaryExpression operator r l
      else n
  | _ => n
  end.

(** [operator.slice(0, -1)] *)
Definition dropLastChar (s : string) : string :=
  String.substring 0 (pred (String.length s)) s.

(** [BinaryExpression.enter[1]]: the node after the hook. *)
Definition BinaryExpression_enter_1 (n : node) : node :=
  match n with
  | BinaryExpression operator l r =>
      if negb (String.eqb operator "===") && negb (String.eqb operator "!==") then n
      else if baseTypeStrictlyMatches l r then
        BinaryExpression (dropLastChar operator) l r
      else n
  | _ => n
  end.

(** [ConditionalExpression(node)]: the node after the hook. *)
Definition ConditionalExpression_hook (n : node) : node := flipNegation n.

(** [Block(node)]: the node after the hook. *)
Definition hoist (body : list node) : list node :=
  filter (fun n => isFunctionDeclaration n = true) body
  ++ filter (fun n => isFunctionDeclaration n = false) body.

Definition Block_hook (n : node) : node :=
  match n with
  | Program body => Program (hoist body)
  | BlockStatement body => BlockStatement (hoist body)
  | _ => n
  end.

(** [For.enter[0]]: the node after the hook. *)
Definition For_enter_0 (n : node) : node :=
  match n with
  | ForStatement init test update (BlockStatement [first]) =>
      ForStatement init test update first
  | ForInStatement l r (BlockStatement [first]) init => ForInStatement l r first init
  | ForOfStatement l r (BlockStatement [first]) init => ForOfStatement l r first init
  | _ => n
  end.

(** [Program(node)]: the node after the hook. *)
Definition Program_hook (n : node) : node :=
  match n with
  | Program body =>
      let statements := toMultipleSequenceExpressions body in
      match statements with
      | [] => n
      | _ => Program statements
      end
  | _ => n
  end.

(** [BlockStatement(node, parent, scope)]: returns the replacement.
    [node === parent.body] holds when the block sits in the [body] field of
    its parent. *)
Definition BlockStatement_hook (p : path) : node :=
  match nodeAt p with
  | BlockStatement body =>
      let statements := toMultipleSequenceExpressions body in
      match statements with
      | [] => Null
      | first :: rest =>
          if bool_decide (1 < length statements)
             || (isFunction (parent p) && String.eqb (field p) "body")
             || isTryStatement (parent p) || isCatchClause (parent p) then
            BlockStatement statements
          else first
      end
  | _ => Null
  end.

(** [WhileStatement(node)]: returns the replacement. *)
Definition WhileStatement_hook (n : node) : node :=
  match n with
  | WhileStatement test body => ForStatement Null test Null body
  | _ => Null
  end.

(** ** The hooks that read or edit the siblings *)

(** [VariableDeclaration.enter[0]]: the loop takes the declarators of the
    following declarations of the same kind, as long as there are any.
    [rest] is what follows the node in its container. *)
Fixpoint absorbSiblings (kind : string) (declarations rest : list node)
  : list node * list node :=
  match rest with
  | VariableDeclaration kind' declarations' :: rest' =>
      if String.eqb kind' kind then absorbSiblings kind (declarations ++ declarations') rest'
      else (declarations, rest)
  | _ => (declarations, rest)
  end.

Definition VariableDeclaration_enter_0 (p : path) : outcome :=
  match nodeAt p with
  | VariableDeclaration kind declarations =>
      if negb (inList p) then nothing p
      else
        let '(declarations, rest) :=
          absorbSiblings kind declarations (drop (S (key p)) (container p)) in
        nothing (moved p (take (key p) (container p)
                          ++ VariableDeclaration kind declarations :: rest)
                         (key p))
  | _ => nothing p
  end.

(** [VariableDeclaration.enter[1]] *)
Definition VariableDeclaration_enter_1 (p : path) : outcome :=
  match nodeAt p with
  | VariableDeclaration kind declarations =>
      if negb (inList p) then nothing p
      else
        match getSibling p (key p + 1) with
        | ForStatement (VariableDeclaration kind' declarations') test update body =>
            if String.eqb kind' kind then
              let next :=
                ForStatement (VariableDeclaration kind' (declarations ++ declarations'))
                             test update body in
              nothing (dangerouslyRemove (key p)
                         (moved p (<[key p + 1 := next]> (container p)) (key p)))
            else nothing p
        | _ => nothing p
        end
  | _ => nothing p
  end.

(** The body of [For.enter[1]], given the [init] of the loop and the loop
    with another [init] in its place. *)
Definition takePrevious (p : path) (init : node) (withInit : node -> node) : outcome :=
  if negb (inList p) || (truthy init && negb (isExpression init)) then nothing p
  else
    let prev := getPrevSibling p in
    match prev with
    | VariableDeclaration _ _ =>
        if negb (truthy init) then
          nothing (dangerouslyRemove (pred (key p)) (setNode p (withInit prev)))
        else nothing p
    | ExpressionStatement expr =>
        let init :=
          if truthy init then
            match expr with
            | SequenceExpression expressions => SequenceExpression (expressions ++ [init])
            | _ => SequenceExpression [expr; init]
            end
          else expr in
        nothing (dangerouslyRemove (pred (key p)) (setNode p (withInit init)))
    | _ => nothing p
    end.

(** [For.enter[1]], on each of the kinds that [For] matches. *)
Definition For_enter_1 (p : path) : outcome :=
  match nodeAt p with
  | ForStatement init test update body =>
      takePrevious p init (fun init => ForStatement init test update body)
  | ForInStatement l r body init => takePrevious p init (ForInStatement l r body)
  | ForOfStatement l r body init => takePrevious p init (ForOfStatement l r body)
  | _ => nothing p
  end.

(** [seq.expressions[seq.expressions.length - 1] = e]; writing at index
    [-1] of an empty array leaves its elements as they are. *)
Definition setLast (e : node) (expressions : list node) : list node :=
  <[pred (length expressions) := e]> expressions.

(** [ReturnStatement(node, parent, scope)].  [seq] is always a node when the
    final test [if (seq)] is reached. *)
Definition ReturnStatement_hook (p : path) : outcome :=
  match nodeAt p with
  | ReturnStatement argument =>
      if negb (inList p) then nothing p
      else
        match getPrevSibling p with
        | ExpressionStatement seq =>
            let seq :=
              if truthy argument then
                match seq with
                | SequenceExpression expressions =>
                    SequenceExpression (expressions ++ [argument])
                | _ => SequenceExpression [seq; argument]
                end
              else
                match seq with
                | SequenceExpression expressions =>
                    let lastExpr := default Null (last expressions) in
                    SequenceExpression
                      (setLast (UnaryExpression "void" lastExpr None) expressions)
                | _ => UnaryExpression "void" seq None
                end in
            if truthy seq then
              returning (dangerouslyRemove (pred (key p)) p) (ReturnStatement seq)
            else nothing p
        | _ => nothing p
        end
  | _ => nothing p
  end.

(** [coerceIf(key)], local to [IfStatement.exit[0]]: the new value of
    [node[key]], given the old one. *)
Definition coerceIf (block : node) : node :=
  match block with
  | BlockStatement [first] =>
      if isVariableDeclaration first && negb (String.eqb (kind_of first) "let") then block
      else first
  | _ => block
  end.

(** [node.consequent.body[node.consequent.body.length - 1]] *)
Definition lastOfBlock (n : node) : node :=
  match n with BlockStatement body => default Null (last body) | _ => Null end.

(** [IfStatement.exit[0]] *)
Definition IfStatement_exit_0 (p : path) : outcome :=
  match nodeAt p with
  | IfStatement test consequent alternate =>
      let consequent := coerceIf consequent in
      let alternate := coerceIf alternate in
      let '(test, consequent, alternate) := flipNegationFields test consequent alternate in
      let p := setNode p (IfStatement test consequent alternate) in
      if truthy consequent && negb (truthy alternate)
         && isExpressionStatement consequent && negb (isCompletionRecord p) then
        returning p
          (ExpressionStatement (LogicalExpression "&&" test (expression_of consequent)))
      else if isExpressionStatement consequent && isExpressionStatement alternate then
        returning p
          (ConditionalExpression test (expression_of consequent) (expression_of alternate))
      else if isReturnStatement consequent && isReturnStatement alternate
              && negb (truthy (getSibling p (key p + 1))) then
        returning p
          (ReturnStatement
             (ConditionalExpression test
                (orElse (argument_of consequent) VOID_0)
                (argument_of alternate)))
      else
        let next := getSibling p (key p + 1) in
        if isReturnStatement consequent && negb (truthy alternate)
           && isReturnStatement next then
          let nextArg := argument_of next in
          returning (dangerouslyRemove (key p + 1) p)
            (ReturnStatement
               (ConditionalExpression test (orElse (argument_of consequent) VOID_0) nextArg))
        else if negb (truthy (getSibling p (key p + 2))) && isReturnStatement consequent
                && negb (truthy alternate) && isExpressionStatement next then
          let nextExpr := UnaryExpression "void" (expression_of next) None in
          let p := dangerouslyRemove (key p + 1) p in
          if truthy (argument_of consequent) then
            returning p
              (ReturnStatement
                 (ConditionalExpression test (argument_of consequent) nextExpr))
          else
            returning p (ReturnStatement (LogicalExpression "||" test nextExpr))
        else if truthy consequent && truthy alternate
                && (isReturnStatement consequent
                    || (isBlockStatement consequent
                        && isReturnStatement (lastOfBlock consequent))) then
          let inserted :=
            match alternate with
            | BlockStatement body => body
            | _ => [alternate]
            end in
          nothing (insertAfter inserted (setNode p (IfStatement test consequent Null)))
        else nothing p
  | _ => nothing p
  end.

(** [IfStatement.exit[1]]: the node after the hook. *)
Definition IfStatement_exit_1 (n : node) : node :=
  match n with
  | IfStatement test (IfStatement test' consequent' _) alternate =>
      IfStatement (LogicalExpression "&&" test test') consequent' alternate
  | _ => n
  end.

(** [IfStatement.exit[2]] *)
Definition IfStatement_exit_2 (p : path) : outcome :=
  match nodeAt p with
  | IfStatement test consequent alternate =>
      if negb (inList p) || truthy alternate
         || negb (isReturnStatement consequent && negb (truthy (argument_of consequent)))
         || negb (isFunction (default Null (ancestors p !! 1))) then nothing p
      else
        let test :=
          match test with
          | BinaryExpression operator l r =>
              if String.eqb operator "!==" then BinaryExpression "===" l r
              else if String.eqb operator "!=" then BinaryExpression "==" l r
              else UnaryExpression "!" test None
          | UnaryExpression operator argument _ =>
              if String.eqb operator "!" then argument
              else UnaryExpression "!" test None
          | _ => UnaryExpression "!" test None
          end in
        let statements := drop (S (key p)) (container p) in
        match statements with
        | [] => nothing (dangerouslyRemove (key p)
                           (setNode p (IfStatement test consequent alternate)))
        | first :: rest =>
            let consequent :=
              match rest with
              | [] => first
              | _ => BlockStatement statements
              end in
            Outcome (moved p (take (key p) (container p)
                              ++ [IfStatement test consequent alternate])
                             (key p))
                    Null true
        end
  | _ => nothing p
  end.

End Hooks.

(** * The traversal

    Modelled from the spec: the traversal driver and the path handle (spec
    4.1 and 4.2) belong to the host framework and are not in [src/].  For each
    node the driver runs the enter hooks of its kind in the order in which
    they are registered, visits the children in source order, then runs the
    exit hooks.  A hook may return a replacement, which the driver puts in the
    node's slot and visits from the beginning; remove the node from its list,
    after which the index points at the successor; insert siblings after the
    node, which are visited in their turn; or ask for the node to be visited
    again.  The virtual kind [Block] matches [Program] and [BlockStatement];
    [For] matches the three kinds of [for] loop, [ForStatement],
    [ForInStatement] and [ForOfStatement].  (The spec's list for [For] names
    the two [while] loops as well; the tree library of the source does not
    count them under [For], and a [while] reaches the hooks of [For] once
    R17 has made it a [for].)  After a traversal the fixed-point controller
    (spec 4.5 and 5) drives another one if the tree has changed, and stops
    when a traversal leaves the tree as it is, or with a fatal error at the
    iteration cap.

    Five points the spec leaves open are settled as follows.  A hook that
    returns a node equal to the one in the slot has replaced nothing (the
    [BlockStatement] hook returns a fresh block every time it runs).  An
    expression that a hook returns for a statement goes into the slot as an
    expression statement, so that the slot of a statement holds a statement
    (spec 3, and R18.4, which has [ExpressionStatement(test ? ce : ae)] in
    the slot where the hook returns the conditional).  The phase at which a
    hook registered as a bare function runs is the parameter [bare].  The
    recursion of one traversal is bounded by [fuel], and [None] means that
    the fuel ran out.  The hooks of the source report no change, so the
    controller takes a traversal to have changed the tree when the tree it
    leaves is not equal to the tree it was given. *)

Inductive phase : Type := Enter | Exit.

(** Modelled from the spec: what the fixed-point controller ends with: the
    tree, on quiescence; the fatal error of spec 7 when the iteration cap is
    hit, with the tree that the last traversal left; or no answer, when a
    traversal ran out of fuel. *)
Inductive verdict : Type :=
| Quiescent (result : node)
| CapHit (last : node)
| OutOfFuel.

(** Modelled from the spec: the iteration cap of the controller, at the
    value spec 5 suggests. *)
Definition cap : nat := 16.

Definition phase_eqb (a b : phase) : bool :=
  match a, b with Enter, Enter | Exit, Exit => true | _, _ => false end.

(** What running the hooks of one phase comes to: the node is still to be
    processed further, or it has been removed or replaced and visited. *)
Inductive progress : Type :=
| Continue (p : path)
| Finished (p : path).

Section Traversal.

Variable isValidIdentifier : string -> bool.
Variable isPure : node -> bool.
Variable baseTypeStrictlyMatches : node -> node -> bool.
Variable isCompletionRecord : path -> bool.
Variable bare : phase.

Definition hook : Type := path -> outcome.

(** A hook that edits the node in place, and one that returns a node. *)
Definition mutating (f : node -> node) : hook :=
  fun p => nothing (setNode p (f (nodeAt p))).

Definition replacing (f : path -> node) : hook :=
  fun p => returning p (f p).

(** Modelled from the spec: an identifier is referenced unless it is a
    declared name (the [id] of a declarator or of a function, a parameter,
    the parameter of a [catch]) or the key of a property or the property of
    a member access that is not computed. *)
Definition isReferenced (p : path) : bool :=
  match parent p with
  | MemberExpression _ _ computed =>
      if String.eqb (field p) "property" then computed else true
  | Property _ _ computed =>
      if String.eqb (field p) "key" then computed else true
  | VariableDeclarator _ _ => negb (String.eqb (field p) "id")
  | FunctionExpression _ _ _ | FunctionDeclaration _ _ _ =>
      negb (String.eqb (field p) "id" || String.eqb (field p) "params")
  | CatchClause _ _ => negb (String.eqb (field p) "param")
  | _ => true
  end.

(** The visitor table of the plugin, by kind, in the order of the source. *)
Definition bareHooks (p : path) : list hook :=
  match nodeAt p with
  | Identifier _ =>
      if isReferenced p then [replacing (fun p => ReferencedIdentifier (nodeAt p))] else []
  | CallExpression _ _ => [replacing (fun p => CallExpression_hook (nodeAt p) (parent p))]
  | LogicalExpression _ _ _ => [mutating LogicalExpression_hook]
  | Literal _ => [replacing (fun p => Literal_hook (nodeAt p))]
  | ConditionalExpression _ _ _ => [mutating ConditionalExpression_hook]
  | Program _ => [mutating Block_hook; mutating Program_hook]
  | BlockStatement _ => [mutating Block_hook; replacing BlockStatement_hook]
  | ReturnStatement _ => [ReturnStatement_hook]
  | WhileStatement _ _ => [replacing (fun p => WhileStatement_hook (nodeAt p))]
  | _ => []
  end.

Definition enterHooks (p : path) : list hook :=
  match nodeAt p with
  | BinaryExpression _ _ _ =>
      [mutating (BinaryExpression_enter_0 isPure);
       mutating (BinaryExpression_enter_1 baseTypeStrictlyMatches)]
  | VariableDeclaration _ _ => [VariableDeclaration_enter_0; VariableDeclaration_enter_1]
  | ForStatement _ _ _ _ | ForInStatement _ _ _ _ | ForOfStatement _ _ _ _ =>
      [mutating For_enter_0; For_enter_1]
  | _ => []
  end.

Definition exitHooks (p : path) : list hook :=
  match nodeAt p with
  | Property _ _ _ => [mutating (Property_exit isValidIdentifier)]
  | MemberExpression _ _ _ => [mutating (MemberExpression_exit isValidIdentifier)]
  | IfStatement _ _ _ =>
      [IfStatement_exit_0 isCompletionRecord; mutating IfStatement_exit_1; IfStatement_exit_2]
  | _ => []
  end.

Definition hooksFor (ph : phase) (p : path) : list hook :=
  match ph with Enter => enterHooks p | Exit => exitHooks p end
  ++ (if phase_eqb ph bare then bareHooks p else []).

(** Modelled from the spec: what the driver puts in the slot of [old] when a
    hook returns [replacement]: the node returned, inside an expression
    statement when it is an expression and stands for a statement. *)
Definition substituted (old replacement : node) : node :=
  if isStatement old && isExpression replacement then ExpressionStatement replacement
  else replacement.

Section Visiting.

(** The visit of a node, one level of fuel down. *)
Variable visit : path -> option path.

(** Modelled from the spec: the driver running the hooks of one phase in
    order.  A hook that removed the node ends the visit; a replacement is put
    in the slot, as [substituted] has it, and visited from the beginning,
    which ends the visit of the node it replaces; after [this.visit()] the
    remaining hooks still run. *)
Fixpoint runHooks (hooks : list hook) (p : path) : option progress :=
  match hooks with
  | [] => Some (Continue p)
  | h :: hooks =>
      let o := h p in
      let p := after o in
      let replacement := substituted (nodeAt p) (returned o) in
      if removed p then Some (Finished p)
      else if truthy replacement && negb (node_eqb replacement (nodeAt p)) then
        Finished <$> visit (setNode p replacement)
      else if revisit o then
        match visit p with
        | Some p => if removed p then Some (Finished p) else runHooks hooks p
        | None => None
        end
      else runHooks hooks p
  end.

(** Modelled from the spec: the driver's visit of the child in a single slot
    [name] of [parentNow]. *)
Definition visitSingle (name : string) (parentNow : node) (above : list node) (c : node)
  : option node :=
  match c with
  | Null => Some Null
  | _ =>
      p ← visit (Path [c] 0 false (parentNow :: above) false name);
      Some (default Null (container p !! 0))
  end.

(** Modelled from the spec: the driver's loop over the children in a list
    slot [name], from index [i] on.  After a removal the index stays, and
    points at the successor; inserted siblings are reached in their turn. *)
Fixpoint visitList (turns : nat) (name : string) (above : list node)
  (l : list node) (i : nat) : option (list node) :=
  match turns with
  | O => None
  | S turns =>
      match l !! i with
      | None => Some l
      | Some Null => visitList turns name above l (S i)
      | Some _ =>
          p ← visit (Path l i true above false name);
          visitList turns name above (container p)
                    (if removed p then key p else S (key p))
      end
  end.

(** Modelled from the spec: the children of a node of a kind the plugin has
    no rule for, each visited in a slot of its own. *)
Fixpoint visitEach (name : string) (parentNow : node) (above l : list node)
  : option (list node) :=
  match l with
  | [] => Some []
  | c :: l =>
      c ← visitSingle name parentNow above c;
      l ← visitEach name parentNow above l;
      Some (c :: l)
  end.

(** Modelled from the spec: the driver's visit of the children of [n], in
    source order; the result is the node with its children as they are after
    their visits. *)
Definition visitChildren (turns : nat) (above : list node) (n : node) : option node :=
  let single := fun name parentNow c => visitSingle name parentNow above c in
  let many := fun name l => visitList turns name (n :: above) l 0 in
  match n with
  | Null | Identifier _ | Literal _ => Some n
  | UnaryExpression operator argument prefix =>
      argument ← single "argument" n argument;
      Some (UnaryExpression operator argument prefix)
  | BinaryExpression operator l r =>
      l ← single "left" n l;
      r ← single "right" (BinaryExpression operator l r) r;
      Some (BinaryExpression operator l r)
  | LogicalExpression operator l r =>
      l ← single "left" n l;
      r ← single "right" (LogicalExpression operator l r) r;
      Some (LogicalExpression operator l r)
  | ConditionalExpression test consequent alternate =>
      test ← single "test" n test;
      consequent ← single "consequent" (ConditionalExpression test consequent alternate)
                          consequent;
      alternate ← single "alternate" (ConditionalExpression test consequent alternate)
                         alternate;
      Some (ConditionalExpression test consequent alternate)
  | SequenceExpression expressions =>
      expressions ← many "expressions" expressions;
      Some (SequenceExpression expressions)
  | CallExpression callee arguments =>
      callee ← single "callee" n callee;
      arguments ← visitList turns "arguments" (CallExpression callee arguments :: above)
                            arguments 0;
      Some (CallExpression callee arguments)
  | MemberExpression object property computed =>
      object ← single "object" n object;
      property ← single "property" (MemberExpression object property computed) property;
      Some (MemberExpression object property computed)
  | Property key value computed =>
      key ← single "key" n key;
      value ← single "value" (Property key value computed) value;
      Some (Property key value computed)
  | FunctionExpression id params body =>
      id ← single "id" n id;
      params ← visitList turns "params" (FunctionExpression id params body :: above)
                         params 0;
      body ← single "body" (FunctionExpression id params body) body;
      Some (FunctionExpression id params body)
  | FunctionDeclaration id params body =>
      id ← single "id" n id;
      params ← visitList turns "params" (FunctionDeclaration id params body :: above)
                         params 0;
      body ← single "body" (FunctionDeclaration id params body) body;
      Some (FunctionDeclaration id params body)
  | VariableDeclarator id init =>
      id ← single "id" n id;
      init ← single "init" (VariableDeclarator id init) init;
      Some (VariableDeclarator id init)
  | VariableDeclaration kind declarations =>
      declarations ← many "declarations" declarations;
      Some (VariableDeclaration kind declarations)
  | ExpressionStatement expression =>
      expression ← single "expression" n expression;
      Some (ExpressionStatement expression)
  | ReturnStatement argument =>
      argument ← single "argument" n argument;
      Some (ReturnStatement argument)
  | IfStatement test consequent alternate =>
      test ← single "test" n test;
      consequent ← single "consequent" (IfStatement test consequent alternate) consequent;
      alternate ← single "alternate" (IfStatement test consequent alternate) alternate;
      Some (IfStatement test consequent alternate)
  | ForStatement init test update body =>
      init ← single "init" n init;
      test ← single "test" (ForStatement init test update body) test;
      update ← single "update" (ForStatement init test update body) update;
      body ← single "body" (ForStatement init test update body) body;
      Some (ForStatement init test update body)
  | ForInStatement l r body init =>
      l ← single "left" n l;
      r ← single "right" (ForInStatement l r body init) r;
      body ← single "body" (ForInStatement l r body init) body;
      Some (ForInStatement l r body init)
  | ForOfStatement l r body init =>
      l ← single "left" n l;
      r ← single "right" (ForOfStatement l r body init) r;
      body ← single "body" (ForOfStatement l r body init) body;
      Some (ForOfStatement l r body init)
  | WhileStatement test body =>
      test ← single "test" n test;
      body ← single "body" (WhileStatement test body) body;
      Some (WhileStatement test body)
  | BlockStatement body =>
      body ← many "body" body;
      Some (BlockStatement body)
  | Program body =>
      body ← many "body" body;
      Some (Program body)
  | TryStatement block handler finalizer =>
      block ← single "block" n block;
      handler ← single "handler" (TryStatement block handler finalizer) handler;
      finalizer ← single "finalizer" (TryStatement block handler finalizer) finalizer;
      Some (TryStatement block handler finalizer)
  | CatchClause param body =>
      param ← single "param" n param;
      body ← single "body" (CatchClause param body) body;
      Some (CatchClause param body)
  | OtherExpression type children =>
      children ← visitEach "children" n above children;
      Some (OtherExpression type children)
  | OtherStatement type children =>
      children ← visitEach "children" n above children;
      Some (OtherStatement type children)
  end.

End Visiting.

(** Modelled from the spec: the driver's visit of the node at [p]: enter
    hooks, children, exit hooks. *)
Fixpoint visit (fuel : nat) (p : path) : option path :=
  match fuel with
  | O => None
  | S fuel =>
      match runHooks (visit fuel) (hooksFor Enter p) p with
      | None => None
      | Some (Finished p) => Some p
      | Some (Continue p) =>
          match visitChildren (visit fuel) fuel (ancestors p) (nodeAt p) with
          | None => None
          | Some n =>
              match runHooks (visit fuel) (hooksFor Exit (setNode p n)) (setNode p n) with
              | None => None
              | Some (Finished p) | Some (Continue p) => Some p
              end
          end
      end
  end.

(** Modelled from the spec: one full traversal, from the root. *)
Definition traverse (fuel : nat) (ast : node) : option node :=
  p ← visit fuel (Path [ast] 0 false [] false "");
  Some (nodeAt p).

(** Modelled from the spec: the fixed-point controller (spec 4.5), with
    [turns] traversals left before the cap.  After a traversal that changed
    the tree it drives another; it stops on quiescence with the tree, and at
    the cap with the tree it had reached. *)
Fixpoint drive (fuel turns : nat) (ast : node) : verdict :=
  match turns with
  | O => CapHit ast
  | S turns =>
      match traverse fuel ast with
      | None => OutOfFuel
      | Some next => if node_eqb next ast then Quiescent next else drive fuel turns next
      end
  end.

(** Modelled from the spec: the pass on a whole tree, [simplify(ast)] of spec
    6: the tree the controller ends with on quiescence; an error returns no
    tree (spec 7). *)
Definition simplify (fuel : nat) (ast : node) : option node :=
  match drive fuel cap ast with
  | Quiescent result => Some result
  | CapHit _ | OutOfFuel => None
  end.

End Traversal.

(** ** Statements that fold and statements that block *)

(** A statement [contributes] an expression when its turn in [convert] ends
    in a push of that expression; it blocks when the turn bails. *)
Definition contributes (statement e : node) : Prop := convertNode statement = Some e.

(** What one turn of the folder's outer loop emits for the expressions
    accumulated before a blocker or the end: one expression statement, or
    nothing when there is no [seq]. *)
Definition sequenceStatement (exprs : list node) : list node :=
  if truthy (seqOf exprs) then [ExpressionStatement (seqOf exprs)] else [].

(** ** Auxiliary readings *)

(** [node.declarations], empty when the node has none. *)
Definition declarations_of (n : node) : list node :=
  match n with VariableDeclaration _ declarations => declarations | _ => [] end.

(** A purity test under which exactly the literals are pure. *)
Definition literalsArePure (n : node) : bool := isLiteral n.

(** ** Quiet expressions *)

(** Expressions on which no hook of the plugin does anything, given the
    answers of the environment: identifiers other than [undefined], literals
    other than booleans, and unary, binary, logical and conditional
    expressions over them whose own rule does not apply. *)
Section Quiet.

Variable isPure : node -> bool.
Variable baseTypeStrictlyMatches : node -> node -> bool.

Definition negated (test : node) : bool :=
  match test with
  | BinaryExpression operator _ _ => String.eqb operator "!==" || String.eqb operator "!="
  | UnaryExpression operator _ _ => String.eqb operator "!"
  | _ => false
  end.

Fixpoint quiet (n : node) : bool :=
  match n with
  | Identifier name => negb (String.eqb name "undefined")
  | Literal (LBoolean _) => false
  | Literal _ => true
  | UnaryExpression _ argument _ => quiet argument
  | BinaryExpression operator l r =>
      quiet l && quiet r
      && negb (isEqualityOperator operator && isPure r)
      && negb ((String.eqb operator "===" || String.eqb operator "!==")
               && baseTypeStrictlyMatches l r)
  | LogicalExpression operator l r =>
      quiet l && quiet r
      && negb (String.eqb operator "&&" && isUnaryExpressionWith "!" l)
  | ConditionalExpression test consequent alternate =>
      quiet test && quiet consequent && quiet alternate && negb (negated test)
  | _ => false
  end.

Fixpoint height (n : node) : nat :=
  match n with
  | UnaryExpression _ argument _ => S (height argument)
  | BinaryExpression _ l r | LogicalExpression _ l r => S (max (height l) (height r))
  | ConditionalExpression test consequent alternate =>
      S (max (height test) (max (height consequent) (height alternate)))
  | _ => 1
  end.

(** The two enter hooks of a binary expression, one after the other. *)
Definition flipAndLoosen (n : node) : node :=
  BinaryExpression_enter_1 baseTypeStrictlyMatches (BinaryExpression_enter_0 isPure n).

(** The operator that [BinaryExpression.enter[1]] leaves on [l operator r]. *)
Definition loosened (operator : string) (l r : node) : string :=
  if (String.eqb operator "===" || String.eqb operator "!==") && baseTypeStrictlyMatches l r
  then dropLastChar operator
  else operator.

End Quiet.

(** ** Evaluation

    The evaluator of the target language is not part of the repository.  What
    follows is the language's meaning of the operators the rewrite [!a && b]
    to [a || b] involves, on expressions without side effects: the value of an
    expression in an environment, and the value a call returns for a function
    whose body is a single [return]. *)

Inductive value : Type :=
| VUndefined
| VNull
| VBoolean (b : bool)
| VNumber (n : Z)
| VString (s : string).

Definition toBoolean (v : value) : bool :=
  match v with
  | VUndefined | VNull => false
  | VBoolean b => b
  | VNumber n => negb (Z.eqb n 0)
  | VString s => negb (String.eqb s "")
  end.

Definition literalValue (l : literal) : value :=
  match l with
  | LBoolean b => VBoolean b
  | LNumber n => VNumber n
  | LString s => VString s
  | LNull => VNull
  end.

Fixpoint evaluate (env : string -> value) (n : node) : option value :=
  match n with
  | Identifier name => Some (env name)
  | Literal v => Some (literalValue v)
  | UnaryExpression operator argument _ =>
      v ← evaluate env argument;
      if String.eqb operator "!" then Some (VBoolean (negb (toBoolean v)))
      else if String.eqb operator "void" then Some VUndefined
      else None
  | LogicalExpression operator l r =>
      v ← evaluate env l;
      if String.eqb operator "&&" then (if toBoolean v then evaluate env r else Some v)
      else if String.eqb operator "||" then (if toBoolean v then Some v else evaluate env r)
      else None
  | ConditionalExpression test consequent alternate =>
      v ← evaluate env test;
      if toBoolean v then evaluate env consequent else evaluate env alternate
  | _ => None
  end.

Definition callResult (env : string -> value) (function : node) : option value :=
  match function with
  | FunctionDeclaration _ _ (BlockStatement [ReturnStatement argument]) =>
      evaluate env argument
  | _ => None
  end.

(** ** Readings used in the further properties *)

(** A statement blocks the folder when its turn in [convert] bails. *)
Definition blocks (statement : node) : bool :=
  match convertNode statement with
  | None => true
  | Some _ => false
  end.

(** What the outer loop of the folder keeps of a blocker,
    [if (bailed && statements[bailedAtIndex]) retStatements.push(...)]: the
    statement itself, and nothing for an empty entry. *)
Definition kept (blocker : node) : list node :=
  if truthy blocker then [blocker] else [].

(** The test as [IfStatement.exit[2]] rewrites it before it takes the
    following statements in: [!==] and [!=] lose their [!], a negation is
    stripped, anything else is negated. *)
Definition invertTest (test : node) : node :=
  match test with
  | BinaryExpression operator l r =>
      if String.eqb operator "!==" then BinaryExpression "===" l r
      else if String.eqb operator "!=" then BinaryExpression "==" l r
      else UnaryExpression "!" test None
  | UnaryExpression operator argument _ =>
      if String.eqb operator "!" then argument
      else UnaryExpression "!" test None
  | _ => UnaryExpression "!" test None
  end.

(** ** Evaluation with binary operators

    As [evaluate], with the meaning of the binary operators as a parameter:
    [binary operator a b] is the value of [a operator b], when it has one. *)

Section EvaluateWith.

Variable binary : string -> value -> value -> option value.

Fixpoint evaluateWith (env : string -> value) (n : node) : option value :=
  match n with
  | Identifier name => Some (env name)
  | Literal v => Some (literalValue v)
  | UnaryExpression operator argument _ =>
      v ← evaluateWith env argument;
      if String.eqb operator "!" then Some (VBoolean (negb (toBoolean v)))
      else if String.eqb operator "void" then Some VUndefined
      else None
  | BinaryExpression operator l r =>
      a ← evaluateWith env l;
      b ← evaluateWith env r;
      binary operator a b
  | LogicalExpression operator l r =>
      v ← evaluateWith env l;
      if String.eqb operator "&&" then (if toBoolean v then evaluateWith env r else Some v)
      else if String.eqb operator "||" then (if toBoolean v then Some v else evaluateWith env r)
      else None
  | ConditionalExpression test consequent alternate =>
      v ← evaluateWith env test;
      if toBoolean v then evaluateWith env consequent else evaluateWith env alternate
  | _ => None
  end.

End EvaluateWith.

(** The value of [!e], given the value of [e]. *)
Definition negation (v : option value) : option value :=
  (fun v => VBoolean (negb (toBoolean v))) <$> v.

(** An operator table in which each of [!==] and [!=] is the negation of
    [===] and [==]. *)
Definition negatingOperators (binary : string -> value -> value -> option value) : Prop :=
  forall a b,
    binary "!==" a b = negation (binary "===" a b)
    /\ binary "!=" a b = negation (binary "==" a b).

(** Strict equality of the values of this file, and the table that knows
    [===] and [!==] only. *)
Definition strictlyEqual (a b : value) : bool :=
  match a, b with
  | VUndefined, VUndefined | VNull, VNull => true
  | VBoolean x, VBoolean y => Bool.eqb x y
  | VNumber x, VNumber y => Z.eqb x y
  | VString x, VString y => String.eqb x y
  | _, _ => false
  end.

Definition strictOperators (operator : string) (a b : value) : option value :=
  if String.eqb operator "===" then Some (VBoolean (strictlyEqual a b))
  else if String.eqb operator "!==" then Some (VBoolean (negb (strictlyEqual a b)))
  else None.

(** * Properties *)

(** ** Equality of trees *)

(** [node_eqb] decides equality. *)
Lemma node_eqb_eq : forall a b : node, node_eqb a b = true -> a = b.
Proof.
  fix IH 1. intros a b H.
  assert (Hlist : forall xs : list node,
             (Forall (fun x => forall y, node_eqb x y = true -> x = y) xs) ->
             forall ys,
               (fix list_eqb (xs ys : list node) {struct xs} : bool :=
                  match xs, ys with
                  | [], [] => true
                  | x :: xs', y :: ys' => node_eqb x y && list_eqb xs' ys'
                  | _, _ => false
                  end) xs ys = true -> xs = ys).
  { intros xs Hxs. induction Hxs as [|x xs Hx _ IHxs]; intros [|y ys] E;
      try discriminate E; [reflexivity|].
    apply andb_prop in E as [E1 E2]. f_equal; [apply Hx, E1 | apply IHxs, E2]. }
  assert (Hall : forall xs : list node,
             Forall (fun x => forall y, node_eqb x y = true -> x = y) xs).
  { fix IHl 1. intros [|x xs]; constructor; [exact (IH x) | exact (IHl xs)]. }
  destruct a, b; try discriminate H; cbn [node_eqb] in H;
    repeat match goal with
           | H : _ && _ = true |- _ => apply andb_prop in H as [? ?]
           end;
    repeat match goal with
           | H : String.eqb _ _ = true |- _ => apply String.eqb_eq in H; subst
           | H : Bool.eqb _ _ = true |- _ => apply Bool.eqb_prop in H; subst
           | H : bool_decide _ = true |- _ => apply bool_decide_eq_true in H; subst
           | H : node_eqb ?x _ = true |- _ => apply (IH x) in H; subst
           | H : _ ?xs _ = true |- _ => apply (Hlist xs (Hall xs)) in H; subst
           end;
    reflexivity.
Qed.


(** ** The sequence folder *)

(** The loop inside [convertNode] on a block body is [convert]. *)
Lemma convertNode_block_from (body exprs : list node) (i : nat) :
  (fix loop (nodes exprs : list node) {struct nodes} : option node :=
     match nodes with
     | [] => Some (seqOf exprs)
     | n' :: rest =>
         match convertNode n' with
         | None => None
         | Some e => loop rest (exprs ++ [e])
         end
     end) body exprs
  = match convertFrom body exprs i with
    | Done s => Some s
    | Bailed _ _ => None
    end.
Proof.
  revert exprs i.
  induction body as [|n body IH]; intros exprs i; simpl.
  - reflexivity.
  - destruct (convertNode n) as [e|]; [apply IH | reflexivity].
Qed.

(** [convertNode] on a block is [convert(node.body)], bailing when it bails. *)
Lemma convertNode_block (body : list node) :
  convertNode (BlockStatement body)
  = match convert body with
    | Done s => Some s
    | Bailed _ _ => None
    end.
Proof. apply (convertNode_block_from body [] 0). Qed.

(** [convert([n])] bails when the turn on [n] does, and otherwise returns
    what the turn pushed. *)
Lemma convert_singleton (n : node) :
  convert [n]
  = match convertNode n with
    | Some e => Done e
    | None => Bailed Null 0
    end.
Proof. unfold convert; simpl. destruct (convertNode n); reflexivity. Qed.

(** [convertNode] on an [if] statement, with the recursive calls written as
    the source has them. *)
Lemma convertNode_if (test c a : node) :
  convertNode (IfStatement test c a)
  = let rc := if truthy c then convert [c] else Done Null in
    if bailed rc then None
    else
      let ra := if truthy a then convert [a] else Done Null in
      if bailed ra then None
      else if negb (truthy (seq ra)) then Some (LogicalExpression "&&" test (seq rc))
      else if negb (truthy (seq rc)) then Some (LogicalExpression "||" test (seq ra))
      else Some (ConditionalExpression test (seq rc) (seq ra)).
Proof.
  cbn [convertNode isExpression]. rewrite !convert_singleton.
  destruct (truthy c); [destruct (convertNode c)|]; cbn [bailed seq];
    try reflexivity;
    (destruct (truthy a); [destruct (convertNode a)|]; cbn [bailed seq]; reflexivity).
Qed.

Lemma convertFrom_prefix (prefix es rest exprs : list node) (i : nat) :
  Forall2 contributes prefix es ->
  convertFrom (prefix ++ rest) exprs i
  = convertFrom rest (exprs ++ es) (i + length prefix).
Proof.
  intros H. revert exprs i.
  induction H as [|s e prefix es Hs _ IH]; intros exprs i; simpl.
  - rewrite app_nil_r, Nat.add_0_r. reflexivity.
  - unfold contributes in Hs. rewrite Hs, IH.
    rewrite <- app_assoc. simpl. f_equal. lia.
Qed.

Lemma convert_all (statements es : list node) :
  Forall2 contributes statements es -> convert statements = Done (seqOf es).
Proof.
  intros H. unfold convert.
  rewrite <- (app_nil_r statements), (convertFrom_prefix _ es) by assumption.
  reflexivity.
Qed.

Lemma convert_blocked (prefix es rest : list node) (blocker : node) :
  Forall2 contributes prefix es ->
  convertNode blocker = None ->
  convert (prefix ++ blocker :: rest) = Bailed (seqOf es) (length prefix).
Proof.
  intros H Hb. unfold convert.
  rewrite (convertFrom_prefix _ es) by assumption. simpl. rewrite Hb. reflexivity.
Qed.

(** Every statement list splits into a run of contributing statements
    followed by nothing or by a blocker and a tail. *)
Lemma split_at_blocker (statements : list node) :
  (exists es, Forall2 contributes statements es)
  \/ (exists prefix es blocker rest,
        statements = prefix ++ blocker :: rest
        /\ Forall2 contributes prefix es
        /\ convertNode blocker = None).
Proof.
  induction statements as [|s statements IH].
  - left. exists []. constructor.
  - destruct (convertNode s) as [e|] eqn:Hs.
    + destruct IH as [[es H]|(prefix & es & blocker & rest & -> & H & Hb)].
      * left. exists (e :: es). constructor; assumption.
      * right. exists (s :: prefix), (e :: es), blocker, rest.
        split; [reflexivity|]. split; [constructor; assumption | assumption].
    + right. exists [], [], s, statements.
      split; [reflexivity|]. split; [constructor | assumption].
Qed.

(** The accumulator of the outer loop is only ever appended to. *)
Lemma foldLoop_acc (fuel : nat) (statements ret : list node) :
  foldLoop fuel statements ret = (ret ++.) <$> foldLoop fuel statements [].
Proof.
  revert statements ret.
  induction fuel as [|fuel IH]; intros statements ret; [reflexivity|].
  cbn [foldLoop].
  destruct (convert statements) as [s|s i]; cbn [seq].
  - destruct (truthy s); simpl; rewrite ?app_nil_r; reflexivity.
  - set (r1 := if truthy s then ret ++ [ExpressionStatement s] else ret).
    set (r1' := if truthy s then [] ++ [ExpressionStatement s] else []).
    assert (E1 : r1 = ret ++ r1') by (subst r1 r1'; destruct (truthy s); simpl;
                                      rewrite ?app_nil_r; reflexivity).
    set (b := default Null (statements !! i)).
    set (r2 := if truthy b then r1 ++ [b] else r1).
    set (r2' := if truthy b then r1' ++ [b] else r1').
    assert (E2 : r2 = ret ++ r2') by (subst r2 r2'; rewrite E1; destruct (truthy b);
                                      rewrite <- ?app_assoc; reflexivity).
    destruct (drop (S i) statements) as [|x l] eqn:Hd.
    + simpl. rewrite E2. reflexivity.
    + rewrite (IH (x :: l) r2), (IH (x :: l) r2'), E2.
      destruct (foldLoop fuel (x :: l) []) as [out|]; simpl; [|reflexivity].
      rewrite <- app_assoc. reflexivity.
Qed.

(** The outer loop never runs out of turns when given one more than the
    number of statements. *)
Lemma foldLoop_total (fuel : nat) (statements ret : list node) :
  length statements < fuel -> is_Some (foldLoop fuel statements ret).
Proof.
  revert statements ret.
  induction fuel as [|fuel IH]; intros statements ret Hlen; [lia|].
  cbn [foldLoop].
  destruct (convert statements) as [s|s i]; [eexists; reflexivity|].
  destruct (drop (S i) statements) as [|x l] eqn:Hd; [eexists; reflexivity|].
  apply IH. rewrite <- Hd, length_drop.
  destruct statements; [discriminate Hd | simpl in *; lia].
Qed.

(** More fuel than needed does not change the result. *)
Lemma foldLoop_fuel (fuel fuel' : nat) (statements ret : list node) :
  length statements < fuel -> length statements < fuel' ->
  foldLoop fuel statements ret = foldLoop fuel' statements ret.
Proof.
  revert fuel' statements ret.
  induction fuel as [|fuel IH]; intros fuel' statements ret H H'; [lia|].
  destruct fuel' as [|fuel']; [lia|].
  cbn [foldLoop].
  destruct (convert statements) as [s|s i]; [reflexivity|].
  destruct (drop (S i) statements) as [|x l] eqn:Hd; [reflexivity|].
  assert (length (x :: l) < length statements).
  { rewrite <- Hd, length_drop. destruct statements; [discriminate Hd | simpl; lia]. }
  apply IH; lia.
Qed.

Lemma fold_all (statements es : list node) :
  Forall2 contributes statements es ->
  toMultipleSequenceExpressions statements = sequenceStatement es.
Proof.
  intros H. unfold toMultipleSequenceExpressions, sequenceStatement.
  cbn [foldLoop]. rewrite (convert_all _ es H). cbn [seq].
  destruct (truthy (seqOf es)); reflexivity.
Qed.

Lemma fold_blocked (prefix es rest : list node) (blocker : node) :
  Forall2 contributes prefix es ->
  convertNode blocker = None ->
  blocker <> Null ->
  toMultipleSequenceExpressions (prefix ++ blocker :: rest)
  = sequenceStatement es ++ blocker :: toMultipleSequenceExpressions rest.
Proof.
  intros H Hb Hn. unfold toMultipleSequenceExpressions at 1.
  cbn [foldLoop]. rewrite (convert_blocked _ es _ _ H Hb). cbn [seq].
  rewrite list_lookup_middle by reflexivity. cbn [from_option id].
  assert (Ht : truthy blocker = true) by (destruct blocker; [congruence | reflexivity ..]).
  rewrite Ht.
  assert (Hd : drop (S (length prefix)) (prefix ++ blocker :: rest) = rest).
  { rewrite cons_middle, app_assoc. apply drop_app_length'.
    rewrite length_app. simpl. lia. }
  rewrite Hd.
  change ((if truthy (seqOf es) then [] ++ [ExpressionStatement (seqOf es)] else []))
    with (sequenceStatement es).
  destruct rest as [|x l].
  - reflexivity.
  - rewrite foldLoop_acc.
    rewrite (foldLoop_fuel _ (S (length (x :: l))) (x :: l) [])
      by (rewrite ?length_app; simpl; lia).
    unfold toMultipleSequenceExpressions.
    destruct (foldLoop_total (S (length (x :: l))) (x :: l) []) as [out Hout]; [lia|].
    rewrite Hout. simpl. rewrite <- app_assoc. reflexivity.
Qed.

(** C9.  The folder walks the statements from left to right.  An expression
    statement contributes its expression; an [if] statement whose branches
    contribute gives a conditional, or [test && ce] without an alternate, or
    [test || ae] without a consequent, and blocks when a branch blocks; a
    block whose statements all contribute gives its folded sequence.  A list
    of contributing statements folds to one expression statement.  At the
    first blocker the expressions accumulated so far are emitted as one
    expression statement, the blocker is kept as it is, and folding starts
    again on the statements after it; every list is of one of these two
    shapes, so the statements keep their order. *)
Theorem fold_partial_bail :
  (forall e, contributes (ExpressionStatement e) e)
  /\ (forall test c a ce ae,
        contributes c ce -> contributes a ae -> ce <> Null -> ae <> Null ->
        contributes (IfStatement test c a) (ConditionalExpression test ce ae))
  /\ (forall test c ce,
        contributes c ce ->
        contributes (IfStatement test c Null) (LogicalExpression "&&" test ce))
  /\ (forall test a ae,
        contributes a ae -> ae <> Null ->
        contributes (IfStatement test Null a) (LogicalExpression "||" test ae))
  /\ (forall test c a,
        (c <> Null /\ convertNode c = None) \/ (a <> Null /\ convertNode a = None) ->
        convertNode (IfStatement test c a) = None)
  /\ (forall body es,
        Forall2 contributes body es -> contributes (BlockStatement body) (seqOf es))
  /\ (forall statements es,
        Forall2 contributes statements es ->
        toMultipleSequenceExpressions statements = sequenceStatement es)
  /\ (forall prefix es blocker rest,
        Forall2 contributes prefix es -> convertNode blocker = None -> blocker <> Null ->
        toMultipleSequenceExpressions (prefix ++ blocker :: rest)
        = sequenceStatement es ++ blocker :: toMultipleSequenceExpressions rest)
  /\ (forall statements,
        (exists es, Forall2 contributes statements es)
        \/ (exists prefix es blocker rest,
              statements = prefix ++ blocker :: rest
              /\ Forall2 contributes prefix es /\ convertNode blocker = None)).
Proof.
  assert (Htruthy : forall n, n <> Null -> truthy n = true)
    by (intros [] Hn; [congruence | reflexivity ..]).
  assert (Hsome : forall n e, contributes n e -> truthy n = true)
    by (intros [] e Hn; [discriminate Hn | reflexivity ..]).
  repeat apply conj.
  - intros e. reflexivity.
  - intros test c a ce ae Hc Ha Hce Hae. unfold contributes in *.
    cbn [convertNode isExpression].
    rewrite (Hsome _ _ Hc), Hc, (Hsome _ _ Ha), Ha, (Htruthy _ Hae), (Htruthy _ Hce).
    reflexivity.
  - intros test c ce Hc. unfold contributes in *.
    cbn [convertNode isExpression truthy]. rewrite (Hsome _ _ Hc), Hc. reflexivity.
  - intros test a ae Ha Hae. unfold contributes in *.
    cbn [convertNode isExpression truthy].
    rewrite (Hsome _ _ Ha), Ha, (Htruthy _ Hae). reflexivity.
  - intros test c a [[Hn Hb]|[Hn Hb]]; cbn [convertNode isExpression];
      rewrite (Htruthy _ Hn), Hb; [reflexivity|].
    destruct (truthy c); [destruct (convertNode c)|]; reflexivity.
  - intros body es H. unfold contributes.
    rewrite convertNode_block, (convert_all _ _ H). reflexivity.
  - apply fold_all.
  - intros prefix es blocker rest. apply fold_blocked.
  - apply split_at_blocker.
Qed.

(** At [a; b; return; c] the two expression statements before the blocker
    become one, the [return] stays and [c] is folded on its own. *)
Lemma fold_partial_bail_witness :
  toMultipleSequenceExpressions
    [ExpressionStatement (Identifier "a"); ExpressionStatement (Identifier "b");
     ReturnStatement Null; ExpressionStatement (Identifier "c")]
  = [ExpressionStatement (SequenceExpression [Identifier "a"; Identifier "b"]);
     ReturnStatement Null; ExpressionStatement (Identifier "c")].
Proof.
  destruct fold_partial_bail as (_ & _ & _ & _ & _ & _ & _ & Hblocked & _).
  apply (Hblocked [ExpressionStatement (Identifier "a"); ExpressionStatement (Identifier "b")]
                  [Identifier "a"; Identifier "b"]
                  (ReturnStatement Null) [ExpressionStatement (Identifier "c")]).
  - repeat constructor.
  - reflexivity.
  - discriminate.
Defined.

(** ** Paths into a list [before ++ x :: rest] *)

Lemma lookup_at (before rest : list node) (x : node) :
  (before ++ x :: rest) !! length before = Some x.
Proof. apply list_lookup_middle. reflexivity. Qed.

Lemma lookup_next (before rest : list node) (x y : node) :
  (before ++ x :: y :: rest) !! (length before + 1) = Some y.
Proof.
  induction before as [|b before IH]; [reflexivity | exact IH].
Qed.

Lemma lookup_next_none (before : list node) (x : node) :
  (before ++ [x]) !! (length before + 1) = None.
Proof.
  induction before as [|b before IH]; [reflexivity | exact IH].
Qed.

Lemma delete_at (before rest : list node) (x : node) :
  delete (length before) (before ++ x :: rest) = before ++ rest.
Proof.
  induction before as [|b before IH]; [reflexivity | simpl; f_equal; exact IH].
Qed.

Lemma insert_at (before rest : list node) (x y : node) :
  <[length before := y]> (before ++ x :: rest) = before ++ y :: rest.
Proof.
  induction before as [|b before IH]; [reflexivity | simpl; f_equal; exact IH].
Qed.

Lemma insert_next (before rest : list node) (x y z : node) :
  <[length before + 1 := z]> (before ++ x :: y :: rest) = before ++ x :: z :: rest.
Proof.
  induction before as [|b before IH]; [reflexivity | simpl; f_equal; exact IH].
Qed.

Lemma delete_next (before rest : list node) (x y : node) :
  delete (length before + 1) (before ++ x :: y :: rest) = before ++ x :: rest.
Proof.
  induction before as [|b before IH]; [reflexivity | simpl; f_equal; exact IH].
Qed.

Lemma drop_after (before tail : list node) (x : node) :
  drop (S (length before)) (before ++ x :: tail) = tail.
Proof.
  rewrite cons_middle, app_assoc. apply drop_app_length'.
  rewrite length_app. simpl. lia.
Qed.

Lemma take_before (before rest : list node) :
  take (length before) (before ++ rest) = before.
Proof. apply take_app_length. Qed.

Lemma setNode_at (before rest above : list node) (x y : node) (inList removed : bool)
  (field : string) :
  setNode (Path (before ++ x :: rest) (length before) inList above removed field) y
  = Path (before ++ y :: rest) (length before) inList above removed field.
Proof. unfold setNode, moved. cbn [container key]. rewrite insert_at. reflexivity. Qed.

(** ** The [if] cascade *)

(** C3.  The guard of [coerceIf] keeps a block whose only statement is a
    declaration of a kind other than [let]: a [let] declaration is taken out
    of its block, a [var] or [const] declaration stays inside.  Any other
    single statement is taken out. *)
Theorem coerceIf_declarations (declarations : list node) (first : node) :
  coerceIf (BlockStatement [VariableDeclaration "let" declarations])
  = VariableDeclaration "let" declarations
  /\ coerceIf (BlockStatement [VariableDeclaration "var" declarations])
     = BlockStatement [VariableDeclaration "var" declarations]
  /\ coerceIf (BlockStatement [VariableDeclaration "const" declarations])
     = BlockStatement [VariableDeclaration "const" declarations]
  /\ (isVariableDeclaration first = false -> coerceIf (BlockStatement [first]) = first).
Proof.
  repeat apply conj; try reflexivity.
  intros H. unfold coerceIf. rewrite H. reflexivity.
Qed.

Lemma coerceIf_declarations_witness :
  coerceIf (BlockStatement [ExpressionStatement (Identifier "a")])
  = ExpressionStatement (Identifier "a").
Proof.
  apply (coerceIf_declarations [] (ExpressionStatement (Identifier "a"))).
  reflexivity.
Defined.

(** The second exit hook on an [if] whose consequent is an [if]. *)
Lemma IfStatement_exit_1_nested (test test' consequent' alternate' alternate : node) :
  IfStatement_exit_1
    (IfStatement test (IfStatement test' consequent' alternate') alternate)
  = IfStatement (LogicalExpression "&&" test test') consequent' alternate.
Proof. reflexivity. Qed.

(** C4.  For an [if] without alternate whose consequent is a block holding
    one inner [if], the first exit hook puts the inner [if] in the place of
    the block and returns nothing, and the second hook folds the two into
    [if (test && test') consequent'], whatever the inner alternate is: the
    hook never reads it, and it is dropped. *)
Theorem if_in_if_drops_inner_alternate
  (isCompletionRecord : path -> bool) (before rest above : list node) (inList : bool)
  (field : string) (test test' consequent' alternate' : node) :
  let inner := IfStatement test' consequent' alternate' in
  let p :=
    Path (before ++ IfStatement test (BlockStatement [inner]) Null :: rest)
         (length before) inList above false field in
  let o := IfStatement_exit_0 isCompletionRecord p in
  returned o = Null
  /\ nodeAt (after o) = IfStatement test inner Null
  /\ IfStatement_exit_1 (nodeAt (after o))
     = IfStatement (LogicalExpression "&&" test test') consequent' Null.
Proof.
  intros inner p o.
  assert (Ho : o = nothing (Path (before ++ IfStatement test inner Null :: rest)
                                 (length before) inList above false field)).
  { subst o inner. unfold IfStatement_exit_0, nodeAt. subst p. cbn [container key].
    rewrite lookup_at.
    cbn [from_option id coerceIf isVariableDeclaration andb flipNegationFields truthy
           negb orb].
    rewrite setNode_at.
    cbn [isExpressionStatement isReturnStatement isBlockStatement truthy andb orb negb].
    rewrite !andb_false_r. reflexivity. }
  rewrite Ho. unfold nothing, nodeAt. cbn [after returned container key].
  rewrite lookup_at. repeat apply conj; reflexivity.
Qed.

(** At [if (a) { if (b) throw e; else foo(); }] the hooks leave
    [if (a && b) throw e;] and the call [foo()] is gone. *)
Example if_in_if_at_failing_input (isCompletionRecord : path -> bool) :
  let inner :=
    IfStatement (Identifier "b")
      (OtherStatement "ThrowStatement" [Identifier "e"])
      (ExpressionStatement (CallExpression (Identifier "foo") [])) in
  let p :=
    Path [IfStatement (Identifier "a") (BlockStatement [inner]) Null] 0 true [] false "body" in
  IfStatement_exit_1 (nodeAt (after (IfStatement_exit_0 isCompletionRecord p)))
  = IfStatement (LogicalExpression "&&" (Identifier "a") (Identifier "b"))
      (OtherStatement "ThrowStatement" [Identifier "e"]) Null.
Proof. reflexivity. Qed.

(** C5.  When both branches are [return] statements and nothing follows, the
    first exit hook returns [return test ? C : A] where [C] is the
    consequent's argument or [void 0], but [A] is the alternate's argument as
    it is: nothing when the alternate is a bare [return].  (The test is one
    that the negation flip leaves alone.) *)
Theorem dual_return_alternate_not_defaulted
  (isCompletionRecord : path -> bool) (before above : list node) (inList : bool)
  (field : string) (test c a : node) :
  negated test = false ->
  let p :=
    Path (before ++ [IfStatement test (ReturnStatement c) (ReturnStatement a)])
         (length before) inList above false field in
  returned (IfStatement_exit_0 isCompletionRecord p)
  = ReturnStatement (ConditionalExpression test (orElse c VOID_0) a).
Proof.
  intros Hneg p.
  assert (Hflip : flipNegationFields test (ReturnStatement c) (ReturnStatement a)
                  = (test, ReturnStatement c, ReturnStatement a)).
  { unfold flipNegationFields. cbn [truthy negb orb].
    destruct test; try reflexivity; cbn [negated] in Hneg.
    - rewrite Hneg. reflexivity.
    - apply orb_false_iff in Hneg as [-> ->]. reflexivity. }
  unfold IfStatement_exit_0, nodeAt. subst p. cbn [container key].
  rewrite lookup_at. cbn [from_option id coerceIf]. rewrite Hflip.
  rewrite setNode_at. unfold getSibling. cbn [container key].
  rewrite lookup_next_none. reflexivity.
Qed.

(** At [if (x) return 1; else return;] the conditional has no alternate. *)
Lemma dual_return_alternate_not_defaulted_witness :
  returned (IfStatement_exit_0 (fun _ => false)
              (Path [IfStatement (Identifier "x")
                       (ReturnStatement (Literal (LNumber 1))) (ReturnStatement Null)]
                    0 true [] false "body"))
  = ReturnStatement
      (ConditionalExpression (Identifier "x") (Literal (LNumber 1)) Null).
Proof.
  apply (dual_return_alternate_not_defaulted (fun _ => false) [] [] true "body"
           (Identifier "x") (Literal (LNumber 1)) Null).
  reflexivity.
Defined.

(** The first exit hook on an [if] whose branches, after coercion, are two
    expression statements: it returns the conditional expression itself, with
    the negation flip applied. *)
Lemma ternary_hook
  (isCompletionRecord : path -> bool) (before rest above : list node) (inList : bool)
  (name : string) (test c a ce ae : node) :
  coerceIf c = ExpressionStatement ce -> coerceIf a = ExpressionStatement ae ->
  ce <> Null -> ae <> Null ->
  IfStatement_exit_0 isCompletionRecord
    (Path (before ++ IfStatement test c a :: rest) (length before) inList above false name)
  = returning
      (Path (before
             ++ flipNegation (IfStatement test (ExpressionStatement ce) (ExpressionStatement ae))
             :: rest)
            (length before) inList above false name)
      (flipNegation (ConditionalExpression test ce ae)).
Proof.
  intros Hc Ha Hce Hae.
  assert (Htruthy : forall n, n <> Null -> truthy n = true)
    by (intros [] Hn; [congruence | reflexivity ..]).
  unfold IfStatement_exit_0, nodeAt. cbn [container key].
  rewrite lookup_at. cbn [from_option id]. rewrite Hc, Ha. cbn [flipNegation].
  unfold flipNegationFields. rewrite (Htruthy _ Hce), (Htruthy _ Hae).
  cbn [truthy negb orb].
  destruct test; try (rewrite setNode_at; reflexivity).
  - destruct (String.eqb operator "!"); rewrite setNode_at; reflexivity.
  - destruct (String.eqb operator "!=="); [rewrite setNode_at; reflexivity|].
    destruct (String.eqb operator "!="); rewrite setNode_at; reflexivity.
Qed.

(** C8.  An [if] whose branches, after coercion, are two expression
    statements.  The first exit hook returns the conditional expression
    [test ? ce : ae] (with the negation flip applied); the driver puts it in
    the slot of the [if] as an expression statement, and goes on to visit
    that statement: what reaches the parent slot is
    [ExpressionStatement(test ? ce : ae)]. *)
Theorem ternary_reaches_slot_as_statement
  (isCompletionRecord : path -> bool) (v : path -> option path) (hooks : list hook)
  (before rest above : list node) (inList : bool) (name : string) (test c a ce ae : node) :
  coerceIf c = ExpressionStatement ce -> coerceIf a = ExpressionStatement ae ->
  ce <> Null -> ae <> Null ->
  let p :=
    Path (before ++ IfStatement test c a :: rest) (length before) inList above false name in
  let conditional := flipNegation (ConditionalExpression test ce ae) in
  let o := IfStatement_exit_0 isCompletionRecord p in
  returned o = conditional
  /\ isExpression conditional = true
  /\ substituted (nodeAt (after o)) (returned o) = ExpressionStatement conditional
  /\ runHooks v (IfStatement_exit_0 isCompletionRecord :: hooks) p
     = Finished <$> v (Path (before ++ ExpressionStatement conditional :: rest)
                            (length before) inList above false name).
Proof.
  intros Hc Ha Hce Hae p conditional o.
  assert (Ho : o = returning
                     (Path (before
                            ++ flipNegation
                                 (IfStatement test (ExpressionStatement ce)
                                    (ExpressionStatement ae))
                            :: rest)
                           (length before) inList above false name)
                     conditional)
    by (apply ternary_hook; assumption).
  assert (Hcond : isExpression conditional = true).
  { subst conditional. unfold flipNegation.
    destruct (flipNegationFields test ce ae) as [[test' ce'] ae']. reflexivity. }
  assert (Hif : isStatement
                  (flipNegation
                     (IfStatement test (ExpressionStatement ce) (ExpressionStatement ae)))
                = true).
  { unfold flipNegation.
    destruct (flipNegationFields test (ExpressionStatement ce) (ExpressionStatement ae))
      as [[test' c'] a']. reflexivity. }
  assert (Hsub : substituted (nodeAt (after o)) (returned o)
                 = ExpressionStatement conditional).
  { rewrite Ho. unfold nodeAt. cbn [returning after returned container key].
    rewrite lookup_at. cbn [from_option id]. unfold substituted.
    rewrite Hif, Hcond. reflexivity. }
  repeat apply conj.
  - rewrite Ho. reflexivity.
  - exact Hcond.
  - exact Hsub.
  - cbn [runHooks]. fold o. rewrite Hsub. rewrite Ho.
    cbn [returning after returned revisit removed truthy andb].
    rewrite setNode_at.
    assert (Hne : node_eqb (ExpressionStatement conditional)
                    (nodeAt (Path (before
                                   ++ flipNegation
                                        (IfStatement test (ExpressionStatement ce)
                                           (ExpressionStatement ae))
                                   :: rest)
                                  (length before) inList above false name)) = false).
    { unfold nodeAt. cbn [container key]. rewrite lookup_at. cbn [from_option id].
      unfold flipNegation.
      destruct (flipNegationFields test (ExpressionStatement ce) (ExpressionStatement ae))
        as [[test' c'] a']. reflexivity. }
    rewrite Hne. reflexivity.
Qed.

(** At [if (x) { foo(); } else { bar(); }] the slot receives the statement
    [x ? foo() : bar();]. *)
Lemma ternary_reaches_slot_as_statement_witness :
  let foo := CallExpression (Identifier "foo") [] in
  let bar := CallExpression (Identifier "bar") [] in
  let branch := fun e => BlockStatement [ExpressionStatement e] in
  runHooks (fun p => Some p) [IfStatement_exit_0 (fun _ => false)]
    (Path [IfStatement (Identifier "x") (branch foo) (branch bar)] 0 true [] false "body")
  = Some (Finished
            (Path [ExpressionStatement (ConditionalExpression (Identifier "x") foo bar)]
                  0 true [] false "body")).
Proof.
  intros foo bar branch.
  apply (ternary_reaches_slot_as_statement (fun _ => false) (fun p => Some p) []
           [] [] [] true "body" (Identifier "x") (branch foo) (branch bar) foo bar);
    [reflexivity | reflexivity | discriminate | discriminate].
Defined.

(** The whole pass on [if (x) { foo(); } else { bar(); }], and on the same
    [if] as the body of a loop: the statement list and the [body] slot both
    end with the expression statement. *)
Example ternary_in_the_whole_pass :
  let foo := CallExpression (Identifier "foo") [] in
  let bar := CallExpression (Identifier "bar") [] in
  let branch := fun e => BlockStatement [ExpressionStatement e] in
  let conditional := ExpressionStatement (ConditionalExpression (Identifier "x") foo bar) in
  let loop := fun body => ForStatement Null (Identifier "c") Null body in
  let pass := fun bare =>
    simplify (fun _ => true) literalsArePure (fun _ _ => false) (fun _ => false) bare 12 in
  let original := IfStatement (Identifier "x") (branch foo) (branch bar) in
  pass Enter (Program [original]) = Some (Program [conditional])
  /\ pass Exit (Program [original]) = Some (Program [conditional])
  /\ pass Enter (Program [loop original]) = Some (Program [loop conditional])
  /\ pass Exit (Program [loop original]) = Some (Program [loop conditional]).
Proof. repeat apply conj; vm_compute; reflexivity. Qed.

(** ** Declarations and the [for] that follows *)

(** The first hook of [For] changes the body of a loop and nothing else. *)
Lemma For_enter_0_body (test update body : node) :
  exists body', forall init,
    For_enter_0 (ForStatement init test update body) = ForStatement init test update body'.
Proof.
  destruct body as [| | | | | | | | | | | | | | | | | | | | | | body | | | | |];
    try (eexists; intros init; reflexivity).
  destruct body as [|first [|second body]]; eexists; intros init; reflexivity.
Qed.

(** C6.  A declaration in a statement list, followed by a [for] loop whose
    [init] is absent or a declaration of the same kind.  The two enter hooks
    of the declaration run, of which the first finds nothing to take in; then
    the driver goes on to the loop and the two enter hooks of [For] run.  After them the loop's [init] is a
    declaration of that kind which holds the declarators of the declaration
    in front of those the loop had, and the declaration statement has left
    the list.  Where the loop has an [init] it is the hook of the declaration
    that merges and removes its own node; where it has none, that hook
    leaves it to the second hook of [For], which takes the declaration as the
    loop's [init]. *)
Theorem merge_into_for
  (before rest above : list node) (kind field : string) (declarations : list node)
  (init test update body : node) :
  init = Null \/ (exists ds, init = VariableDeclaration kind ds) ->
  let p :=
    Path (before ++ VariableDeclaration kind declarations
                 :: ForStatement init test update body :: rest)
         (length before) true above false field in
  let o := VariableDeclaration_enter_1 (after (VariableDeclaration_enter_0 p)) in
  let next :=
    Path (container (after o))
         (if removed (after o) then key (after o) else S (key (after o)))
         true above false field in
  let o' := For_enter_1 (setNode next (For_enter_0 (nodeAt next))) in
  VariableDeclaration_enter_0 p = nothing p
  /\ container (after o')
  = before
    ++ For_enter_0
         (ForStatement (VariableDeclaration kind (declarations ++ declarations_of init))
                       test update body)
    :: rest
  /\ key (after o') = length before
  /\ returned o = Null /\ returned o' = Null
  /\ (init <> Null -> removed (after o) = true)
  /\ (init = Null -> o = nothing p).
Proof.
  intros Hinit p o next o'.
  destruct (For_enter_0_body test update body) as [body' Hbody].
  assert (Hfirst : VariableDeclaration_enter_0 p = nothing p).
  { unfold VariableDeclaration_enter_0, nodeAt. subst p. cbn [container key inList negb].
    rewrite lookup_at, drop_after, take_before. reflexivity. }
  split; [exact Hfirst|]. subst o' next o. rewrite Hfirst.
  change (after (nothing p)) with p.
  set (o := VariableDeclaration_enter_1 p).
  set (next := Path (container (after o))
                    (if removed (after o) then key (after o) else S (key (after o)))
                    true above false field).
  set (o' := For_enter_1 (setNode next (For_enter_0 (nodeAt next)))).
  destruct Hinit as [-> | [ds ->]].
  - (* no init: the hook of the loop takes the declaration *)
    assert (Ho : o = nothing p).
    { subst o. unfold VariableDeclaration_enter_1, nodeAt, getSibling. subst p.
      cbn [container key inList negb].
      rewrite lookup_at. cbn [from_option id]. rewrite lookup_next. reflexivity. }
    assert (Hnext : next
                    = Path (before ++ VariableDeclaration kind declarations
                                   :: ForStatement Null test update body :: rest)
                           (S (length before)) true above false field).
    { subst next. rewrite Ho. reflexivity. }
    assert (Ho' : o' = nothing
                         (Path (before ++ ForStatement (VariableDeclaration kind declarations)
                                            test update body' :: rest)
                               (length before) true above false field)).
    { subst o'. rewrite Hnext. unfold nodeAt at 1. cbn [container key].
      replace (S (length before)) with (length before + 1) by lia.
      rewrite lookup_next. cbn [from_option id]. rewrite Hbody.
      unfold setNode, moved. cbn [container key inList ancestors removed].
      rewrite insert_next.
      unfold For_enter_1, nodeAt. cbn [container key].
      rewrite lookup_next. cbn [from_option id].
      unfold takePrevious, getPrevSibling, getSibling. cbn [container key inList].
      replace (length before + 1) with (S (length before)) by lia.
      rewrite lookup_at. cbn [from_option id truthy negb andb orb].
      unfold dangerouslyRemove, setNode, moved.
      cbn [container key inList ancestors removed pred].
      replace (S (length before)) with (length before + 1) by lia.
      rewrite insert_next, delete_at.
      destruct (decide (length before < length before + 1)); [|lia].
      destruct (decide (length before = length before + 1)); [lia|].
      replace (pred (length before + 1)) with (length before) by lia. reflexivity. }
    rewrite Ho', Ho. cbn [declarations_of]. rewrite app_nil_r, Hbody.
    repeat apply conj; try reflexivity. intros H. congruence.
  - (* an init of the same kind: the hook of the declaration merges *)
    assert (Ho : o = nothing
                       (Path (before ++ ForStatement
                                          (VariableDeclaration kind (declarations ++ ds))
                                          test update body :: rest)
                             (length before) true above true field)).
    { subst o. unfold VariableDeclaration_enter_1, nodeAt, getSibling. subst p.
      cbn [container key inList negb].
      rewrite lookup_at. cbn [from_option id]. rewrite lookup_next. cbn [from_option id].
      rewrite String.eqb_refl. unfold dangerouslyRemove, moved.
      cbn [container key inList ancestors removed].
      rewrite insert_next, delete_at.
      destruct (decide (length before < length before)); [lia|].
      destruct (decide (length before = length before)); [|congruence]. reflexivity. }
    assert (Ho' : o' = nothing
                         (Path (before ++ ForStatement
                                            (VariableDeclaration kind (declarations ++ ds))
                                            test update body' :: rest)
                               (length before) true above false field)).
    { subst o' next. rewrite Ho. cbn [nothing after container key removed].
      unfold nodeAt at 1. cbn [container key]. rewrite lookup_at. cbn [from_option id].
      rewrite Hbody, setNode_at.
      unfold For_enter_1, nodeAt. cbn [container key]. rewrite lookup_at.
      cbn [from_option id]. unfold takePrevious.
      cbn [inList truthy isExpression negb andb orb]. reflexivity. }
    rewrite Ho', Ho. cbn [declarations_of]. rewrite Hbody.
    repeat apply conj; try reflexivity. intros H. discriminate H.
Qed.

(** [var a = 1; for (; c;) { g(); }] becomes [for (var a = 1; c;) g();]. *)
Lemma merge_into_for_witness :
  let a := VariableDeclarator (Identifier "a") (Literal (LNumber 1)) in
  let g := ExpressionStatement (CallExpression (Identifier "g") []) in
  let p := Path [VariableDeclaration "var" [a];
                 ForStatement Null (Identifier "c") Null (BlockStatement [g])]
                0 true [] false "body" in
  let loop := Path (container p) 1 true [] false "body" in
  container (after (For_enter_1 (setNode loop (For_enter_0 (nodeAt loop)))))
  = [ForStatement (VariableDeclaration "var" [a]) (Identifier "c") Null g].
Proof.
  intros a g p loop.
  apply (merge_into_for [] [] [] "var" "body" [a] Null (Identifier "c") Null
                        (BlockStatement [g]) (or_introl eq_refl)).
Defined.

(** ** The equality flip *)

(** C7, as stated, fails at [1 == 2] when literals are pure: the first
    application gives [2 == 1] and the second gives [1 == 2] back. *)
Lemma flip_twice_counterexample :
  let n := BinaryExpression "==" (Literal (LNumber 1)) (Literal (LNumber 2)) in
  BinaryExpression_enter_0 literalsArePure (BinaryExpression_enter_0 literalsArePure n)
  <> BinaryExpression_enter_0 literalsArePure n
  /\ BinaryExpression_enter_0 literalsArePure (BinaryExpression_enter_0 literalsArePure n) = n.
Proof. split; [discriminate | reflexivity]. Qed.

(** C7, amended.  Applying the flip twice is the same as applying it once
    when the operator is not an equality operator or one of the operands is
    not pure; when the operator is an equality operator and both operands are
    pure, the second application swaps the operands back and the original
    tree returns. *)
Theorem flip_twice (isPure : node -> bool) (operator : string) (l r : node) :
  let n := BinaryExpression operator l r in
  let flip := BinaryExpression_enter_0 isPure in
  (isEqualityOperator operator && isPure l && isPure r = false -> flip (flip n) = flip n)
  /\ (isEqualityOperator operator && isPure l && isPure r = true -> flip (flip n) = n).
Proof.
  intros n flip. subst n flip. unfold BinaryExpression_enter_0.
  destruct (isEqualityOperator operator) eqn:Hop;
    destruct (isPure r) eqn:Hr; destruct (isPure l) eqn:Hl; cbn [andb];
    rewrite ?Hop, ?Hr, ?Hl; cbn [andb]; split; intros H;
    try discriminate H; reflexivity.
Qed.

(** [typeof x == 1] goes to [1 == typeof x] and stays there. *)
Lemma flip_twice_witness :
  let n := BinaryExpression "==" (UnaryExpression "typeof" (Identifier "x") (Some true))
                            (Literal (LNumber 1)) in
  BinaryExpression_enter_0 literalsArePure (BinaryExpression_enter_0 literalsArePure n)
  = BinaryExpression_enter_0 literalsArePure n.
Proof.
  intros n.
  apply (flip_twice literalsArePure "==" (UnaryExpression "typeof" (Identifier "x") (Some true))
                    (Literal (LNumber 1))).
  reflexivity.
Defined.

(** ** A [return] after an expression statement *)

(** C10.  For a [return] in a list, right after an expression statement
    [e;]: the hook takes the expression statement out of the list and returns
    a new [return] statement.  With an argument, the new argument is the
    comma sequence of [e] (of its elements, when [e] is itself a sequence)
    followed by the old argument.  Without one, it is [void e], or, when [e]
    is a sequence, [e] with its last element wrapped in [void]. *)
Theorem return_takes_previous_expression
  (before rest above : list node) (field : string) (e argument : node) :
  let p :=
    Path (before ++ ExpressionStatement e :: ReturnStatement argument :: rest)
         (S (length before)) true above false field in
  let o := ReturnStatement_hook p in
  container (after o) = before ++ ReturnStatement argument :: rest
  /\ key (after o) = length before
  /\ container (setNode (after o) (returned o)) = before ++ returned o :: rest
  /\ (argument <> Null -> isSequenceExpression e = false ->
      returned o = ReturnStatement (SequenceExpression [e; argument]))
  /\ (argument <> Null -> forall expressions, e = SequenceExpression expressions ->
      returned o = ReturnStatement (SequenceExpression (expressions ++ [argument])))
  /\ (argument = Null -> isSequenceExpression e = false ->
      returned o = ReturnStatement (UnaryExpression "void" e None))
  /\ (argument = Null -> forall expressions lastExpr,
      e = SequenceExpression (expressions ++ [lastExpr]) ->
      returned o
      = ReturnStatement
          (SequenceExpression (expressions ++ [UnaryExpression "void" lastExpr None]))).
Proof.
  intros p o.
  assert (Htruthy : forall n, n <> Null -> truthy n = true)
    by (intros [] Hn; [congruence | reflexivity ..]).
  assert (Hnode : nodeAt p = ReturnStatement argument).
  { unfold nodeAt. subst p. cbn [container key].
    replace (S (length before)) with (length before + 1) by lia.
    rewrite lookup_next. reflexivity. }
  assert (Hprev : getPrevSibling p = ExpressionStatement e).
  { unfold getPrevSibling, getSibling. subst p. cbn [container key].
    rewrite lookup_at. reflexivity. }
  assert (Hrem : dangerouslyRemove (pred (key p)) p
                 = Path (before ++ ReturnStatement argument :: rest)
                        (length before) true above false field).
  { unfold dangerouslyRemove. subst p. cbn [container key pred inList removed ancestors].
    rewrite delete_at.
    destruct (decide (length before < S (length before))); [|lia].
    destruct (decide (length before = S (length before))); [lia|]. reflexivity. }
  assert (Ho : exists s, o = returning (dangerouslyRemove (pred (key p)) p) (ReturnStatement s)).
  { subst o. unfold ReturnStatement_hook. rewrite Hnode, Hprev.
    replace (inList p) with true by reflexivity. cbn [negb].
    destruct (truthy argument); destruct e; cbn [truthy]; eexists; reflexivity. }
  destruct Ho as [s Ho].
  repeat apply conj.
  - rewrite Ho, Hrem. reflexivity.
  - rewrite Ho, Hrem. reflexivity.
  - rewrite Ho, Hrem. cbn [after returned returning]. rewrite setNode_at. reflexivity.
  - intros Ha He. subst o. unfold ReturnStatement_hook. rewrite Hnode, Hprev.
    replace (inList p) with true by reflexivity. cbn [negb].
    rewrite (Htruthy _ Ha). destruct e; try discriminate He; reflexivity.
  - intros Ha expressions ->. subst o. unfold ReturnStatement_hook. rewrite Hnode, Hprev.
    replace (inList p) with true by reflexivity. cbn [negb].
    rewrite (Htruthy _ Ha). reflexivity.
  - intros -> He. subst o. unfold ReturnStatement_hook. rewrite Hnode, Hprev.
    replace (inList p) with true by reflexivity. cbn [negb truthy].
    destruct e; try discriminate He; reflexivity.
  - intros -> expressions lastExpr ->. subst o. unfold ReturnStatement_hook.
    rewrite Hnode, Hprev.
    replace (inList p) with true by reflexivity. cbn [negb truthy returned returning].
    unfold setLast. rewrite last_snoc. cbn [from_option id].
    rewrite length_app. cbn [length].
    replace (pred (length expressions + 1)) with (length expressions) by lia.
    rewrite insert_at. reflexivity.
Qed.

(** [a(); return b;] becomes [return a(), b;]. *)
Lemma return_takes_previous_expression_witness :
  let a := CallExpression (Identifier "a") [] in
  returned (ReturnStatement_hook
              (Path [ExpressionStatement a; ReturnStatement (Identifier "b")] 1 true [] false "body"))
  = ReturnStatement (SequenceExpression [a; Identifier "b"]).
Proof.
  intros a.
  apply (return_takes_previous_expression [] [] [] "body" a (Identifier "b")).
  - discriminate.
  - reflexivity.
Defined.

(** ** The whole pass *)

Section WholePass.

Variable isValidIdentifier : string -> bool.
Variable isPure : node -> bool.
Variable baseTypeStrictlyMatches : node -> node -> bool.
Variable isCompletionRecord : path -> bool.
Variable bare : phase.

Abbreviation visit' :=
  (visit isValidIdentifier isPure baseTypeStrictlyMatches isCompletionRecord bare).
Abbreviation hooksFor' :=
  (hooksFor isValidIdentifier isPure baseTypeStrictlyMatches isCompletionRecord bare).
Abbreviation quiet' := (quiet isPure baseTypeStrictlyMatches).

Lemma nodeAt_lookup (p : path) (n : node) :
  container p !! key p = Some n -> nodeAt p = n.
Proof. unfold nodeAt. intros ->. reflexivity. Qed.

Lemma setNode_lookup (p : path) (n : node) :
  container p !! key p = Some n -> setNode p n = p.
Proof.
  intros H. unfold setNode, moved. rewrite list_insert_id by exact H.
  destruct p; reflexivity.
Qed.

Lemma lookup_setNode (p : path) (n m : node) :
  container p !! key p = Some n -> container (setNode p m) !! key (setNode p m) = Some m.
Proof.
  intros H. unfold setNode, moved. cbn [container key].
  apply list_lookup_insert_eq. eapply lookup_lt_Some, H.
Qed.

Lemma setNode_setNode (p : path) (n m : node) :
  setNode (setNode p n) m = setNode p m.
Proof.
  unfold setNode, moved. cbn [container key inList ancestors removed field].
  rewrite list_insert_insert_eq. reflexivity.
Qed.

(** A hook that returns nothing has nothing put in the slot. *)
Lemma substituted_nothing (old : node) : substituted old Null = Null.
Proof. unfold substituted. rewrite andb_false_r. reflexivity. Qed.

(** Hooks that do nothing let the phase go on. *)
Lemma runHooks_nothing (v : path -> option path) (hooks : list hook) (p : path) :
  removed p = false ->
  Forall (fun h => h p = nothing p) hooks ->
  runHooks v hooks p = Some (Continue p).
Proof.
  intros Hr H. induction H as [|h hooks Hh _ IH]; [reflexivity|].
  cbn [runHooks]. rewrite Hh. cbn [nothing after returned revisit].
  rewrite substituted_nothing. cbn [truthy andb]. rewrite Hr. exact IH.
Qed.

Lemma mutating_nothing (f : node -> node) (p : path) (n : node) :
  container p !! key p = Some n -> f n = n -> mutating f p = nothing p.
Proof.
  intros H Hf. unfold mutating. rewrite (nodeAt_lookup _ _ H), Hf, (setNode_lookup _ _ H).
  reflexivity.
Qed.

Lemma replacing_nothing (f : path -> node) (p : path) :
  f p = Null -> replacing f p = nothing p.
Proof. intros H. unfold replacing, returning, nothing. rewrite H. reflexivity. Qed.

(** On a quiet expression every hook of either phase does nothing. *)
Lemma quiet_hooks (ph : phase) (p : path) (n : node) :
  quiet' n = true ->
  container p !! key p = Some n ->
  Forall (fun h => h p = nothing p) (hooksFor' ph p).
Proof.
  intros Hq H. unfold hooksFor, enterHooks, exitHooks, bareHooks.
  rewrite (nodeAt_lookup _ _ H).
  destruct n; try discriminate Hq; cbn [quiet] in Hq.
  - (* Identifier *)
    destruct ph, bare, (isReferenced p); cbn [phase_eqb app]; repeat constructor.
    all: apply replacing_nothing; rewrite (nodeAt_lookup _ _ H);
      unfold ReferencedIdentifier, isIdentifierNamed;
      destruct (String.eqb name "undefined"); [discriminate Hq | reflexivity].
  - (* Literal *)
    match type of Hq with
    | match ?v with LBoolean _ => _ | _ => _ end = _ => destruct v
    end; try discriminate Hq;
      destruct ph, bare; cbn [phase_eqb app]; repeat constructor.
    all: apply replacing_nothing; rewrite (nodeAt_lookup _ _ H); reflexivity.
  - (* UnaryExpression *)
    destruct ph, bare; cbn [phase_eqb app]; constructor.
  - (* BinaryExpression *)
    apply andb_prop in Hq as [Hq Hl]. apply andb_prop in Hq as [_ Hf].
    apply negb_true_iff in Hf, Hl.
    assert (H0 : BinaryExpression_enter_0 isPure (BinaryExpression operator n1 n2)
                 = BinaryExpression operator n1 n2)
      by (unfold BinaryExpression_enter_0; rewrite Hf; reflexivity).
    assert (H1 : BinaryExpression_enter_1 baseTypeStrictlyMatches
                   (BinaryExpression operator n1 n2)
                 = BinaryExpression operator n1 n2).
    { unfold BinaryExpression_enter_1.
      destruct (String.eqb operator "==="), (String.eqb operator "!==");
        cbn [negb andb orb] in *; try reflexivity; rewrite Hl; reflexivity. }
    destruct ph, bare; cbn [phase_eqb app]; repeat constructor;
      eapply mutating_nothing; eauto.
  - (* LogicalExpression *)
    apply andb_prop in Hq as [_ Hf]. apply negb_true_iff in Hf.
    assert (H0 : LogicalExpression_hook (LogicalExpression operator n1 n2)
                 = LogicalExpression operator n1 n2)
      by (unfold LogicalExpression_hook; rewrite Hf; reflexivity).
    destruct ph, bare; cbn [phase_eqb app]; repeat constructor;
      eapply mutating_nothing; eauto.
  - (* ConditionalExpression *)
    apply andb_prop in Hq as [_ Hf]. apply negb_true_iff in Hf.
    assert (H0 : ConditionalExpression_hook (ConditionalExpression n1 n2 n3)
                 = ConditionalExpression n1 n2 n3).
    { unfold ConditionalExpression_hook, flipNegation, flipNegationFields.
      destruct (negb (truthy n2) || negb (truthy n3)); [reflexivity|].
      destruct n1; try reflexivity; cbn [negated] in Hf.
      - rewrite Hf. reflexivity.
      - apply orb_false_iff in Hf as [-> ->]. reflexivity. }
    destruct ph, bare; cbn [phase_eqb app]; repeat constructor;
      eapply mutating_nothing; eauto.
Qed.

Lemma quiet_truthy (n : node) : quiet' n = true -> n <> Null.
Proof. intros H ->. discriminate H. Qed.

(** A child in a single slot that its visit leaves alone. *)
Lemma visitSingle_unchanged (v : path -> option path) (name : string)
  (parentNow : node) (above : list node) (c : node) :
  c <> Null ->
  v (Path [c] 0 false (parentNow :: above) false name)
  = Some (Path [c] 0 false (parentNow :: above) false name) ->
  visitSingle v name parentNow above c = Some c.
Proof.
  intros Hc Hv. unfold visitSingle. destruct c; [congruence | rewrite Hv; reflexivity ..].
Qed.

(** The traversal leaves a quiet expression as it is. *)
Lemma quiet_visit (n : node) :
  quiet' n = true ->
  forall (fuel : nat) (p : path),
    height n <= fuel ->
    container p !! key p = Some n ->
    removed p = false ->
    visit' fuel p = Some p.
Proof.
  induction n; intros Hq fuel p Hfuel H Hr; try discriminate Hq;
    (destruct fuel as [|fuel]; [cbn [height] in Hfuel; lia|]);
    cbn [visit];
    rewrite (runHooks_nothing _ _ _ Hr (quiet_hooks Enter p _ Hq H));
    rewrite (nodeAt_lookup _ _ H).
  - (* Identifier *)
    cbn [visitChildren]. rewrite (setNode_lookup _ _ H).
    rewrite (runHooks_nothing _ _ _ Hr (quiet_hooks Exit p _ Hq H)). reflexivity.
  - (* Literal *)
    cbn [visitChildren]. rewrite (setNode_lookup _ _ H).
    rewrite (runHooks_nothing _ _ _ Hr (quiet_hooks Exit p _ Hq H)). reflexivity.
  - (* UnaryExpression *)
    pose proof Hq as Hq'. cbn [quiet] in Hq'. cbn [height] in Hfuel.
    cbn [visitChildren].
    rewrite (visitSingle_unchanged _ _ _ _ n (quiet_truthy _ Hq'))
      by (apply IHn; [exact Hq' | lia | reflexivity | reflexivity]).
    cbn [mbind option_bind]. rewrite (setNode_lookup _ _ H).
    rewrite (runHooks_nothing _ _ _ Hr (quiet_hooks Exit p _ Hq H)). reflexivity.
  - (* BinaryExpression *)
    pose proof Hq as Hq'. cbn [quiet] in Hq'. cbn [height] in Hfuel.
    apply andb_prop in Hq' as [Hq' _]. apply andb_prop in Hq' as [Hq' _].
    apply andb_prop in Hq' as [Hq1 Hq2].
    cbn [visitChildren].
    rewrite (visitSingle_unchanged _ _ _ _ n1 (quiet_truthy _ Hq1))
      by (apply IHn1; [exact Hq1 | lia | reflexivity | reflexivity]).
    cbn [mbind option_bind].
    rewrite (visitSingle_unchanged _ _ _ _ n2 (quiet_truthy _ Hq2))
      by (apply IHn2; [exact Hq2 | lia | reflexivity | reflexivity]).
    cbn [mbind option_bind]. rewrite (setNode_lookup _ _ H).
    rewrite (runHooks_nothing _ _ _ Hr (quiet_hooks Exit p _ Hq H)). reflexivity.
  - (* LogicalExpression *)
    pose proof Hq as Hq'. cbn [quiet] in Hq'. cbn [height] in Hfuel.
    apply andb_prop in Hq' as [Hq' _]. apply andb_prop in Hq' as [Hq1 Hq2].
    cbn [visitChildren].
    rewrite (visitSingle_unchanged _ _ _ _ n1 (quiet_truthy _ Hq1))
      by (apply IHn1; [exact Hq1 | lia | reflexivity | reflexivity]).
    cbn [mbind option_bind].
    rewrite (visitSingle_unchanged _ _ _ _ n2 (quiet_truthy _ Hq2))
      by (apply IHn2; [exact Hq2 | lia | reflexivity | reflexivity]).
    cbn [mbind option_bind]. rewrite (setNode_lookup _ _ H).
    rewrite (runHooks_nothing _ _ _ Hr (quiet_hooks Exit p _ Hq H)). reflexivity.
  - (* ConditionalExpression *)
    pose proof Hq as Hq'. cbn [quiet] in Hq'. cbn [height] in Hfuel.
    apply andb_prop in Hq' as [Hq' _]. apply andb_prop in Hq' as [Hq' Hq3].
    apply andb_prop in Hq' as [Hq1 Hq2].
    cbn [visitChildren].
    rewrite (visitSingle_unchanged _ _ _ _ n1 (quiet_truthy _ Hq1))
      by (apply IHn1; [exact Hq1 | lia | reflexivity | reflexivity]).
    cbn [mbind option_bind].
    rewrite (visitSingle_unchanged _ _ _ _ n2 (quiet_truthy _ Hq2))
      by (apply IHn2; [exact Hq2 | lia | reflexivity | reflexivity]).
    cbn [mbind option_bind].
    rewrite (visitSingle_unchanged _ _ _ _ n3 (quiet_truthy _ Hq3))
      by (apply IHn3; [exact Hq3 | lia | reflexivity | reflexivity]).
    cbn [mbind option_bind]. rewrite (setNode_lookup _ _ H).
    rewrite (runHooks_nothing _ _ _ Hr (quiet_hooks Exit p _ Hq H)). reflexivity.
Qed.

Abbreviation flipAndLoosen' := (flipAndLoosen isPure baseTypeStrictlyMatches).

Lemma flipAndLoosen_shape (operator : string) (l r : node) :
  exists operator',
    flipAndLoosen' (BinaryExpression operator l r) = BinaryExpression operator' l r
    \/ flipAndLoosen' (BinaryExpression operator l r) = BinaryExpression operator' r l.
Proof.
  unfold flipAndLoosen, BinaryExpression_enter_0, BinaryExpression_enter_1.
  destruct (isEqualityOperator operator && isPure r);
    destruct (negb (String.eqb operator "===") && negb (String.eqb operator "!=="));
    try (destruct (baseTypeStrictlyMatches r l));
    try (destruct (baseTypeStrictlyMatches l r));
    eexists; (left; reflexivity) || (right; reflexivity).
Qed.

Lemma runHooks_mutating (v : path -> option path) (f : node -> node) (hooks : list hook)
  (p : path) :
  removed p = false ->
  runHooks v (mutating f :: hooks) p = runHooks v hooks (setNode p (f (nodeAt p))).
Proof.
  intros Hr. cbn [runHooks mutating nothing after returned revisit].
  rewrite substituted_nothing. cbn [truthy andb setNode moved removed].
  rewrite Hr. reflexivity.
Qed.

(** The visit of a comparison of two quiet operands applies the two enter
    hooks and nothing else. *)
Lemma visit_comparison (fuel : nat) (p : path) (operator : string) (l r : node) :
  quiet' l = true -> quiet' r = true ->
  height l <= fuel -> height r <= fuel ->
  container p !! key p = Some (BinaryExpression operator l r) ->
  removed p = false ->
  visit' (S fuel) p = Some (setNode p (flipAndLoosen' (BinaryExpression operator l r))).
Proof.
  intros Hl Hr Hhl Hhr H Hrem.
  set (n := BinaryExpression operator l r) in *.
  set (p' := setNode p (flipAndLoosen' n)).
  assert (Hp' : container p' !! key p' = Some (flipAndLoosen' n))
    by (eapply lookup_setNode, H).
  assert (Hrem' : removed p' = false) by exact Hrem.
  assert (Henter : runHooks (visit' fuel) (hooksFor' Enter p) p = Some (Continue p')).
  { unfold hooksFor, enterHooks, bareHooks. rewrite (nodeAt_lookup _ _ H). subst n.
    cbn [app]. rewrite runHooks_mutating by exact Hrem.
    rewrite runHooks_mutating by exact Hrem.
    rewrite (nodeAt_lookup _ _ H).
    rewrite (nodeAt_lookup _ _ (lookup_setNode _ _ _ H)), setNode_setNode.
    destruct (phase_eqb Enter bare); reflexivity. }
  cbn [visit]. rewrite Henter, (nodeAt_lookup _ _ Hp').
  destruct (flipAndLoosen_shape operator l r) as [operator' [E|E]];
    fold n in E; rewrite E in *; cbn [visitChildren].
  - rewrite (visitSingle_unchanged _ _ _ _ l (quiet_truthy _ Hl))
      by (apply (quiet_visit l); [exact Hl | lia | reflexivity | reflexivity]).
    cbn [mbind option_bind].
    rewrite (visitSingle_unchanged _ _ _ _ r (quiet_truthy _ Hr))
      by (apply (quiet_visit r); [exact Hr | lia | reflexivity | reflexivity]).
    cbn [mbind option_bind]. rewrite (setNode_lookup _ _ Hp').
    unfold hooksFor, exitHooks, bareHooks. rewrite (nodeAt_lookup _ _ Hp').
    destruct (phase_eqb Exit bare); reflexivity.
  - rewrite (visitSingle_unchanged _ _ _ _ r (quiet_truthy _ Hr))
      by (apply (quiet_visit r); [exact Hr | lia | reflexivity | reflexivity]).
    cbn [mbind option_bind].
    rewrite (visitSingle_unchanged _ _ _ _ l (quiet_truthy _ Hl))
      by (apply (quiet_visit l); [exact Hl | lia | reflexivity | reflexivity]).
    cbn [mbind option_bind]. rewrite (setNode_lookup _ _ Hp').
    unfold hooksFor, exitHooks, bareHooks. rewrite (nodeAt_lookup _ _ Hp').
    destruct (phase_eqb Exit bare); reflexivity.
Qed.

Abbreviation traverse' :=
  (traverse isValidIdentifier isPure baseTypeStrictlyMatches isCompletionRecord bare).

Lemma flipAndLoosen_truthy (operator : string) (l r : node) :
  truthy (flipAndLoosen' (BinaryExpression operator l r)) = true.
Proof.
  destruct (flipAndLoosen_shape operator l r) as [operator' [-> | ->]]; reflexivity.
Qed.

(** The hooks of [Program] do nothing on a body that is one expression
    statement. *)
Lemma program_hooks (ph : phase) (p : path) (e : node) :
  truthy e = true ->
  container p !! key p = Some (Program [ExpressionStatement e]) ->
  Forall (fun h => h p = nothing p) (hooksFor' ph p).
Proof.
  intros He H. unfold hooksFor, enterHooks, exitHooks, bareHooks.
  rewrite (nodeAt_lookup _ _ H).
  assert (H0 : Block_hook (Program [ExpressionStatement e])
               = Program [ExpressionStatement e]) by reflexivity.
  assert (H1 : Program_hook (Program [ExpressionStatement e])
               = Program [ExpressionStatement e]).
  { unfold Program_hook, toMultipleSequenceExpressions. cbn. rewrite He. reflexivity. }
  destruct ph, bare; cbn [phase_eqb app]; repeat constructor;
    eapply mutating_nothing; eauto.
Qed.

(** The visit of an expression statement holding a comparison. *)
Lemma visit_statement (fuel : nat) (operator : string) (l r : node)
  (above : list node) (name : string) (k : bool) :
  quiet' l = true -> quiet' r = true ->
  height l <= fuel -> height r <= fuel ->
  visit' (S (S fuel))
    (Path [ExpressionStatement (BinaryExpression operator l r)] 0 k above false name)
  = Some (Path [ExpressionStatement (flipAndLoosen' (BinaryExpression operator l r))]
               0 k above false name).
Proof.
  intros Hl Hr Hhl Hhr.
  set (b := BinaryExpression operator l r).
  set (p := Path [ExpressionStatement b] 0 k above false name).
  change (visit' (S (S fuel)) p) with
    (match runHooks (visit' (S fuel)) (hooksFor' Enter p) p with
     | None => None
     | Some (Finished p) => Some p
     | Some (Continue p) =>
         match visitChildren (visit' (S fuel)) (S fuel) (ancestors p) (nodeAt p) with
         | None => None
         | Some n =>
             match runHooks (visit' (S fuel)) (hooksFor' Exit (setNode p n)) (setNode p n)
             with
             | None => None
             | Some (Finished p) | Some (Continue p) => Some p
             end
         end
     end).
  assert (Hhooks : forall ph e,
             hooksFor' ph (Path [ExpressionStatement e] 0 k above false name) = [])
    by (intros ph e; unfold hooksFor; destruct ph, bare; reflexivity).
  subst p. rewrite Hhooks. cbn [runHooks].
  change (nodeAt (Path [ExpressionStatement b] 0 k above false name))
    with (ExpressionStatement b).
  cbn [visitChildren]. unfold visitSingle. subst b.
  rewrite (visit_comparison fuel _ operator l r) by (assumption || reflexivity).
  cbn [mbind option_bind]. destruct bare; reflexivity.
Qed.

(** One traversal of the program [l operator r;]. *)
Lemma traverse_comparison (fuel : nat) (operator : string) (l r : node) :
  quiet' l = true -> quiet' r = true ->
  height l + 3 <= fuel -> height r + 3 <= fuel ->
  traverse' fuel (Program [ExpressionStatement (BinaryExpression operator l r)])
  = Some (Program [ExpressionStatement
                     (flipAndLoosen' (BinaryExpression operator l r))]).
Proof.
  intros Hl Hr Hhl Hhr.
  destruct fuel as [|[|[|fuel]]]; try lia.
  set (b := BinaryExpression operator l r).
  set (p := Path [Program [ExpressionStatement b]] 0 false [] false "").
  unfold traverse. fold p.
  change (visit' (S (S (S fuel))) p) with
    (match runHooks (visit' (S (S fuel))) (hooksFor' Enter p) p with
     | None => None
     | Some (Finished p) => Some p
     | Some (Continue p) =>
         match visitChildren (visit' (S (S fuel))) (S (S fuel)) (ancestors p) (nodeAt p) with
         | None => None
         | Some n =>
             match runHooks (visit' (S (S fuel))) (hooksFor' Exit (setNode p n))
                            (setNode p n)
             with
             | None => None
             | Some (Finished p) | Some (Continue p) => Some p
             end
         end
     end).
  rewrite (runHooks_nothing _ _ p eq_refl (program_hooks Enter p b eq_refl eq_refl)).
  change (nodeAt p) with (Program [ExpressionStatement b]).
  cbn [visitChildren visitList lookup list_lookup]. subst b.
  rewrite (visit_statement fuel operator l r _ _ _ Hl Hr) by lia.
  cbn [mbind option_bind removed key container visitList lookup list_lookup].
  set (p1 := setNode p _).
  rewrite (runHooks_nothing _ _ p1 eq_refl
             (program_hooks Exit p1 _ (flipAndLoosen_truthy operator l r) eq_refl)).
  reflexivity.
Qed.

Abbreviation drive' :=
  (drive isValidIdentifier isPure baseTypeStrictlyMatches isCompletionRecord bare).
Abbreviation simplify' :=
  (simplify isValidIdentifier isPure baseTypeStrictlyMatches isCompletionRecord bare).


(** With an equality operator and a pure right operand the two enter hooks
    swap the operands, and loosen a strict operator when the types match. *)
Lemma flipAndLoosen_swaps (operator : string) (l r : node) :
  isEqualityOperator operator = true -> isPure r = true ->
  flipAndLoosen' (BinaryExpression operator l r)
  = BinaryExpression (loosened baseTypeStrictlyMatches operator r l) r l
  /\ isEqualityOperator (loosened baseTypeStrictlyMatches operator r l) = true.
Proof.
  intros Hop Hr.
  unfold flipAndLoosen, BinaryExpression_enter_0, BinaryExpression_enter_1, loosened.
  rewrite Hop, Hr. cbn [andb].
  destruct (String.eqb_spec operator "===") as [-> | H1];
    [| destruct (String.eqb_spec operator "!==") as [-> | H2]]; cbn [negb andb orb].
  - destruct (baseTypeStrictlyMatches r l); split; reflexivity.
  - destruct (baseTypeStrictlyMatches r l); split; reflexivity.
  - split; [reflexivity | exact Hop].
Qed.

(** An equality comparison of two different pure operands never lets the
    controller come to rest: each traversal swaps the operands. *)
Lemma drive_comparison (fuel turns : nat) (l r : node) :
  quiet' l = true -> quiet' r = true ->
  height l + 3 <= fuel -> height r + 3 <= fuel ->
  isPure l = true -> isPure r = true -> l <> r ->
  forall operator, isEqualityOperator operator = true ->
    (exists last,
       drive' fuel turns (Program [ExpressionStatement (BinaryExpression operator l r)])
       = CapHit last)
    /\ (exists last,
          drive' fuel turns (Program [ExpressionStatement (BinaryExpression operator r l)])
          = CapHit last).
Proof.
  intros Hl Hr Hhl Hhr Hpl Hpr Hne.
  induction turns as [|turns IH]; intros operator Hop.
  - split; eexists; reflexivity.
  - assert (Hdiff : forall o o' a b, a <> b ->
               node_eqb (Program [ExpressionStatement (BinaryExpression o' b a)])
                        (Program [ExpressionStatement (BinaryExpression o a b)]) = false).
    { intros o o' a b Hab. destruct (node_eqb _ _) eqn:E; [|reflexivity].
      apply node_eqb_eq in E. congruence. }
    split; cbn [drive].
    + rewrite traverse_comparison by assumption.
      destruct (flipAndLoosen_swaps operator l r Hop Hpr) as [-> Hop'].
      rewrite Hdiff by exact Hne. apply (IH _ Hop').
    + rewrite traverse_comparison by assumption.
      destruct (flipAndLoosen_swaps operator r l Hop Hpl) as [-> Hop'].
      rewrite Hdiff by congruence. apply (IH _ Hop').
Qed.

End WholePass.




(** C1.  The hook on logical expressions rewrites [!a && b] to [a || b]
    wherever it stands.  In [function f(a, b) { return !a && b; }] the whole
    pass leaves [return a || b;], and the call [f(1, 2)] returns [false]
    before the pass and [1] after it. *)
Theorem logical_rewrite_changes_return_value :
  let a := Identifier "a" in
  let b := Identifier "b" in
  let f := fun argument =>
    FunctionDeclaration (Identifier "f") [a; b] (BlockStatement [ReturnStatement argument]) in
  let original := LogicalExpression "&&" (UnaryExpression "!" a (Some true)) b in
  let rewritten := LogicalExpression "||" a b in
  let env := fun name => if String.eqb name "a" then VNumber 1 else VNumber 2 in
  let pass := fun bare =>
    simplify (fun _ => true) literalsArePure (fun _ _ => false) (fun _ => false) bare 10 in
  LogicalExpression_hook original = rewritten
  /\ pass Enter (Program [f original]) = Some (Program [f rewritten])
  /\ pass Exit (Program [f original]) = Some (Program [f rewritten])
  /\ callResult env (f original) = Some (VBoolean false)
  /\ callResult env (f rewritten) = Some (VNumber 1).
Proof. repeat apply conj; vm_compute; reflexivity. Qed.


(** * Further properties of the code *)

(** ** The sequence folder *)

(** The fold of a list with a blocker, whatever the blocker is: an empty
    entry is dropped, any other kept. *)
Lemma fold_blocked_kept (prefix es rest : list node) (blocker : node) :
  Forall2 contributes prefix es ->
  convertNode blocker = None ->
  toMultipleSequenceExpressions (prefix ++ blocker :: rest)
  = sequenceStatement es ++ kept blocker ++ toMultipleSequenceExpressions rest.
Proof.
  intros H Hb. destruct (truthy blocker) eqn:Ht.
  - unfold kept. rewrite Ht. apply fold_blocked; [assumption | assumption |].
    intros ->. discriminate Ht.
  - assert (blocker = Null) as -> by (destruct blocker; try discriminate Ht; reflexivity).
    unfold kept. cbn [truthy app]. unfold toMultipleSequenceExpressions at 1.
    cbn [foldLoop]. rewrite (convert_blocked _ es _ _ H Hb). cbn [seq].
    rewrite list_lookup_middle by reflexivity. cbn [from_option id truthy].
    assert (Hd : drop (S (length prefix)) (prefix ++ Null :: rest) = rest).
    { rewrite cons_middle, app_assoc. apply drop_app_length'.
      rewrite length_app. simpl. lia. }
    rewrite Hd.
    change ((if truthy (seqOf es) then [] ++ [ExpressionStatement (seqOf es)] else []))
      with (sequenceStatement es).
    destruct rest as [|x l].
    + cbn. rewrite app_nil_r. reflexivity.
    + rewrite foldLoop_acc.
      rewrite (foldLoop_fuel _ (S (length (x :: l))) (x :: l) [])
        by (rewrite ?length_app; simpl; lia).
      unfold toMultipleSequenceExpressions.
      destruct (foldLoop_total (S (length (x :: l))) (x :: l) []) as [out Hout]; [lia|].
      rewrite Hout. reflexivity.
Qed.

Lemma sequenceStatement_length (prefix es : list node) :
  Forall2 contributes prefix es -> length (sequenceStatement es) <= length prefix.
Proof.
  intros H. unfold sequenceStatement.
  destruct H; [reflexivity|]. destruct (truthy _); simpl; lia.
Qed.

(** An induction on statement lists that follows the folder: a list of
    contributing statements, or a contributing prefix, a blocker and a tail
    for which the property holds. *)
Lemma fold_induction (P : list node -> Prop) :
  (forall statements es, Forall2 contributes statements es -> P statements) ->
  (forall prefix es blocker rest,
     Forall2 contributes prefix es -> convertNode blocker = None ->
     P rest -> P (prefix ++ blocker :: rest)) ->
  forall statements, P statements.
Proof.
  intros Hall Hblocked statements.
  remember (length statements) as n eqn:Hn.
  revert statements Hn. induction n as [n IH] using lt_wf_ind. intros statements Hn.
  destruct (split_at_blocker statements)
    as [[es H] | (prefix & es & blocker & rest & -> & H & Hb)].
  - exact (Hall _ _ H).
  - apply (Hblocked _ es); [assumption | assumption |].
    apply (IH (length rest)); [|reflexivity].
    subst n. rewrite length_app. simpl. lia.
Qed.

(** X1.  The folder never returns more statements than it was given. *)
Theorem fold_never_longer (statements : list node) :
  length (toMultipleSequenceExpressions statements) <= length statements.
Proof.
  induction statements as [statements es H | prefix es blocker rest H Hb IH]
    using fold_induction.
  - rewrite (fold_all _ _ H). apply sequenceStatement_length, H.
  - rewrite (fold_blocked_kept _ _ _ _ H Hb), !length_app.
    pose proof (sequenceStatement_length _ _ H).
    assert (length (kept blocker) <= 1) by (unfold kept; destruct (truthy blocker); simpl; lia).
    simpl. lia.
Qed.

Lemma sequenceStatement_refold (es : list node) :
  exists es',
    Forall2 contributes (sequenceStatement es) es'
    /\ sequenceStatement es' = sequenceStatement es.
Proof.
  unfold sequenceStatement. destruct (truthy (seqOf es)) eqn:Ht.
  - exists [seqOf es]. split; [repeat constructor|].
    cbn [seqOf]. rewrite Ht. reflexivity.
  - exists []. split; [constructor | reflexivity].
Qed.

Lemma Forall_nonnull_blocker (prefix rest : list node) (blocker : node) :
  Forall (fun s => s <> Null) (prefix ++ blocker :: rest) ->
  blocker <> Null /\ Forall (fun s => s <> Null) rest.
Proof.
  intros H. apply Forall_app in H as [_ H]. apply Forall_cons in H. exact H.
Qed.

Lemma fold_twice (statements : list node) :
  Forall (fun s => s <> Null) statements ->
  toMultipleSequenceExpressions (toMultipleSequenceExpressions statements)
  = toMultipleSequenceExpressions statements.
Proof.
  induction statements as [statements es H | prefix es blocker rest H Hb IH]
    using fold_induction; intros Hnn.
  - rewrite (fold_all _ _ H).
    destruct (sequenceStatement_refold es) as (es' & H' & E).
    rewrite (fold_all _ _ H'). exact E.
  - apply Forall_nonnull_blocker in Hnn as [Hn Hrest].
    rewrite (fold_blocked _ _ _ _ H Hb Hn).
    destruct (sequenceStatement_refold es) as (es' & H' & E).
    rewrite (fold_blocked _ _ _ _ H' Hb Hn), E, (IH Hrest). reflexivity.
Qed.

(** X2.  On a list without empty entries the folder is idempotent: folding
    its own output changes nothing. *)
Theorem fold_idempotent (statements : list node) :
  Forall (fun s => s <> Null) statements ->
  toMultipleSequenceExpressions (toMultipleSequenceExpressions statements)
  = toMultipleSequenceExpressions statements.
Proof. exact (fold_twice statements). Qed.

(** [a; b; return; c] folds to three statements, which fold to themselves. *)
Lemma fold_idempotent_witness :
  let statements :=
    [ExpressionStatement (Identifier "a"); ExpressionStatement (Identifier "b");
     ReturnStatement Null; ExpressionStatement (Identifier "c")] in
  toMultipleSequenceExpressions (toMultipleSequenceExpressions statements)
  = toMultipleSequenceExpressions statements.
Proof.
  intros statements. apply (fold_idempotent statements).
  repeat constructor; discriminate.
Defined.

Lemma contributing_not_blocking (statements es : list node) :
  Forall2 contributes statements es -> List.filter blocks statements = [].
Proof.
  intros H. induction H as [|s e l es Hs _ IH]; [reflexivity|].
  cbn [List.filter]. unfold blocks at 1. unfold contributes in Hs. rewrite Hs. exact IH.
Qed.

(** X3.  The folder keeps the blockers, and keeps them in their order: the
    statements that cannot be expressed are the same, in the same order, in
    the output as in the input (for a list without empty entries). *)
Theorem fold_keeps_blockers (statements : list node) :
  Forall (fun s => s <> Null) statements ->
  List.filter blocks (toMultipleSequenceExpressions statements)
  = List.filter blocks statements.
Proof.
  induction statements as [statements es H | prefix es blocker rest H Hb IH]
    using fold_induction; intros Hnn.
  - rewrite (fold_all _ _ H), (contributing_not_blocking _ _ H).
    destruct (sequenceStatement_refold es) as (es' & H' & _).
    exact (contributing_not_blocking _ _ H').
  - apply Forall_nonnull_blocker in Hnn as [Hn Hrest].
    rewrite (fold_blocked _ _ _ _ H Hb Hn), !List.filter_app.
    destruct (sequenceStatement_refold es) as (es' & H' & _).
    rewrite (contributing_not_blocking _ _ H'), (contributing_not_blocking _ _ H).
    assert (Hbb : blocks blocker = true) by (unfold blocks; rewrite Hb; reflexivity).
    cbn [List.filter app]. rewrite Hbb, (IH Hrest). reflexivity.
Qed.

(** In [a; return; b; throw e; c] the [return] and the [throw] stay, in that
    order. *)
Lemma fold_keeps_blockers_witness :
  let throw := OtherStatement "ThrowStatement" [Identifier "e"] in
  let statements :=
    [ExpressionStatement (Identifier "a"); ReturnStatement Null;
     ExpressionStatement (Identifier "b"); throw; ExpressionStatement (Identifier "c")] in
  List.filter blocks (toMultipleSequenceExpressions statements)
  = List.filter blocks statements.
Proof.
  intros throw statements. apply (fold_keeps_blockers statements).
  repeat constructor; discriminate.
Defined.

Lemma fold_shape (statements : list node) :
  Forall (fun s => (blocks s = true /\ s ∈ statements /\ s <> Null)
                   \/ (exists e, s = ExpressionStatement e /\ e <> Null))
         (toMultipleSequenceExpressions statements).
Proof.
  assert (Hseq : forall es (P : node -> Prop),
             (forall e, e <> Null -> P (ExpressionStatement e)) ->
             Forall P (sequenceStatement es)).
  { intros es P HP. unfold sequenceStatement. destruct (truthy (seqOf es)) eqn:Ht.
    - repeat constructor. apply HP. intros E. rewrite E in Ht. discriminate Ht.
    - constructor. }
  induction statements as [statements es H | prefix es blocker rest H Hb IH]
    using fold_induction.
  - rewrite (fold_all _ _ H). apply Hseq. intros e He. right. eauto.
  - rewrite (fold_blocked_kept _ _ _ _ H Hb). repeat apply Forall_app_2.
    + apply Hseq. intros e He. right. eauto.
    + unfold kept. destruct (truthy blocker) eqn:Ht; [|constructor].
      apply Forall_cons. split; [|constructor].
      left. repeat apply conj.
      * unfold blocks. rewrite Hb. reflexivity.
      * apply elem_of_app. right. apply elem_of_cons. left. reflexivity.
      * intros E. rewrite E in Ht. discriminate Ht.
    + eapply Forall_impl; [exact IH|]. intros s [(Hs & Hin & Hn) | Hs]; [left | right; exact Hs].
      repeat apply conj; [assumption | | assumption].
      apply elem_of_app. right. apply elem_of_cons. right. exact Hin.
Qed.

(** X4.  Every statement the folder returns is either a blocker taken from
    the input or an expression statement that holds an expression; the folder
    makes no other statement and never an expression statement without an
    expression. *)
Theorem fold_output_shape (statements : list node) :
  Forall (fun s => (blocks s = true /\ s ∈ statements /\ s <> Null)
                   \/ (exists e, s = ExpressionStatement e /\ e <> Null))
         (toMultipleSequenceExpressions statements).
Proof. exact (fold_shape statements). Qed.

(** X5.  The [do ... while] loop of the folder makes at most one turn more
    than there are blockers in the list: with that many turns allowed it ends
    with the result of the folder. *)
Theorem fold_turns (fuel : nat) (statements : list node) :
  length (List.filter blocks statements) < fuel ->
  foldLoop fuel statements [] = Some (toMultipleSequenceExpressions statements).
Proof.
  revert statements. induction fuel as [|fuel IH]; intros statements Hfuel; [lia|].
  destruct (split_at_blocker statements)
    as [[es H] | (prefix & es & blocker & rest & -> & H & Hb)].
  - rewrite (fold_all _ _ H). cbn [foldLoop]. rewrite (convert_all _ _ H). reflexivity.
  - rewrite (fold_blocked_kept _ _ _ _ H Hb).
    cbn [foldLoop]. rewrite (convert_blocked _ es _ _ H Hb). cbn [seq].
    rewrite list_lookup_middle by reflexivity. cbn [from_option id].
    assert (Hd : drop (S (length prefix)) (prefix ++ blocker :: rest) = rest).
    { rewrite cons_middle, app_assoc. apply drop_app_length'.
      rewrite length_app. simpl. lia. }
    rewrite Hd.
    change ((if truthy (seqOf es) then [] ++ [ExpressionStatement (seqOf es)] else []))
      with (sequenceStatement es).
    assert (Hacc : (if truthy blocker then sequenceStatement es ++ [blocker]
                    else sequenceStatement es)
                   = sequenceStatement es ++ kept blocker)
      by (unfold kept; destruct (truthy blocker); rewrite ?app_nil_r; reflexivity).
    rewrite Hacc.
    destruct rest as [|x l].
    + cbn [app]. rewrite app_nil_r. reflexivity.
    + set (r := x :: l) in *. rewrite foldLoop_acc, IH.
      * cbn [fmap option_fmap option_map]. rewrite <- app_assoc. reflexivity.
      * rewrite List.filter_app, (contributing_not_blocking _ _ H) in Hfuel.
        assert (Hbb : blocks blocker = true) by (unfold blocks; rewrite Hb; reflexivity).
        cbn [List.filter app] in Hfuel. rewrite Hbb in Hfuel.
        cbn [length] in Hfuel. lia.
Qed.

(** Two blockers: three turns are enough for [a; return; b; return]. *)
Lemma fold_turns_witness :
  let statements :=
    [ExpressionStatement (Identifier "a"); ReturnStatement Null;
     ExpressionStatement (Identifier "b"); ReturnStatement Null] in
  foldLoop 3 statements [] = Some (toMultipleSequenceExpressions statements).
Proof.
  intros statements. apply (fold_turns 3 statements). vm_compute. lia.
Defined.

(** X6.  What [convert] reports: without [bailed], every statement
    contributed and [seq] is the fold of all of them; with [bailed],
    [bailedAtIndex] is the index of the first statement that cannot be
    expressed and [seq] is the fold of the statements before it. *)
Theorem convert_reports_first_blocker (statements : list node) :
  match convert statements with
  | Done sq => exists es, Forall2 contributes statements es /\ sq = seqOf es
  | Bailed sq i =>
      exists es blocker,
        Forall2 contributes (take i statements) es
        /\ sq = seqOf es
        /\ statements !! i = Some blocker
        /\ convertNode blocker = None
  end.
Proof.
  destruct (split_at_blocker statements)
    as [[es H] | (prefix & es & blocker & rest & -> & H & Hb)].
  - rewrite (convert_all _ _ H). eauto.
  - rewrite (convert_blocked _ es _ _ H Hb). exists es, blocker.
    repeat apply conj; [| reflexivity | apply list_lookup_middle; reflexivity | exact Hb].
    rewrite take_app_length. exact H.
Qed.


(** ** Hoisting, and the hooks of [Program] and [BlockStatement] *)

Lemma hoist_cons (x : node) (body : list node) :
  hoist (x :: body)
  = if isFunctionDeclaration x
    then x :: hoist body
    else filter (fun n => isFunctionDeclaration n = true) body
         ++ x :: filter (fun n => isFunctionDeclaration n = false) body.
Proof.
  unfold hoist. rewrite !filter_cons.
  destruct (isFunctionDeclaration x) eqn:Hx.
  - destruct (decide (true = true)); [|congruence].
    destruct (decide (true = false)); [discriminate|]. reflexivity.
  - destruct (decide (false = true)); [discriminate|].
    destruct (decide (false = false)); [|congruence]. reflexivity.
Qed.

Lemma hoist_declarations (body : list node) :
  Forall (fun n => isFunctionDeclaration n = true)
         (filter (fun n => isFunctionDeclaration n = true) body)
  /\ Forall (fun n => isFunctionDeclaration n = false)
            (filter (fun n => isFunctionDeclaration n = false) body).
Proof.
  split; apply Forall_forall; intros x Hx; apply list_elem_of_filter in Hx as [Hx _];
    exact Hx.
Qed.

(** X7.  Hoisting rearranges and loses nothing: the hoisted body is a
    permutation of the body, and in it no statement that is not a function
    declaration comes before one that is. *)
Theorem hoist_declarations_first (body : list node) :
  hoist body ≡ₚ body
  /\ (forall i j x y,
        i < j -> hoist body !! i = Some x -> hoist body !! j = Some y ->
        isFunctionDeclaration y = true -> isFunctionDeclaration x = true).
Proof.
  split.
  - induction body as [|x body IH]; [reflexivity|].
    rewrite hoist_cons. destruct (isFunctionDeclaration x).
    + constructor. exact IH.
    + rewrite <- Permutation_middle. constructor. exact IH.
  - intros i j x y Hij Hi Hj Hy. destruct (hoist_declarations body) as [Htop Hbottom].
    unfold hoist in Hi, Hj.
    set (top := filter (fun n => isFunctionDeclaration n = true) body) in *.
    set (bottom := filter (fun n => isFunctionDeclaration n = false) body) in *.
    destruct (decide (i < length top)) as [Hlt | Hge].
    + rewrite lookup_app_l in Hi by exact Hlt.
      exact (proj1 (Forall_lookup _ _) Htop i x Hi).
    + rewrite lookup_app_r in Hj by lia.
      pose proof (proj1 (Forall_lookup _ _) Hbottom _ y Hj) as Hy'. congruence.
Qed.

(** In [a; function f; function g], hoisted to [f; g; a], [g] at index 1 is
    a declaration and so is what stands before it. *)
Lemma hoist_declarations_first_witness :
  let f := FunctionDeclaration (Identifier "f") [] (BlockStatement []) in
  let g := FunctionDeclaration (Identifier "g") [] (BlockStatement []) in
  let a := ExpressionStatement (Identifier "a") in
  hoist [a; f; g] ≡ₚ [a; f; g] /\ isFunctionDeclaration f = true.
Proof.
  intros f g a. split.
  - exact (proj1 (hoist_declarations_first [a; f; g])).
  - apply (proj2 (hoist_declarations_first [a; f; g]) 0 1 f g); [lia | reflexivity ..].
Defined.

Lemma filter_other_kind (b : bool) (body : list node) :
  filter (fun n => isFunctionDeclaration n = b)
         (filter (fun n => isFunctionDeclaration n = negb b) body)
  = [].
Proof.
  induction body as [|x body IH]; [reflexivity|].
  rewrite filter_cons. destruct (decide (isFunctionDeclaration x = negb b)) as [Hx|Hx].
  - rewrite filter_cons_False; [exact IH|]. rewrite Hx. destruct b; discriminate.
  - exact IH.
Qed.

Lemma filter_declarations_hoist (body : list node) :
  filter (fun n => isFunctionDeclaration n = true) (hoist body)
  = filter (fun n => isFunctionDeclaration n = true) body
  /\ filter (fun n => isFunctionDeclaration n = false) (hoist body)
     = filter (fun n => isFunctionDeclaration n = false) body.
Proof.
  unfold hoist. rewrite !filter_app. split.
  - rewrite (filter_other_kind true), app_nil_r.
    apply list_filter_filter_l. tauto.
  - rewrite (filter_other_kind false). apply list_filter_filter_l. tauto.
Qed.

(** X8.  Hoisting is stable and idempotent: the function declarations keep
    their order among themselves, so do the other statements, and the hook
    applied to its own result changes nothing. *)
Theorem hoist_stable (n : node) (body : list node) :
  filter (fun n => isFunctionDeclaration n = true) (hoist body)
  = filter (fun n => isFunctionDeclaration n = true) body
  /\ filter (fun n => isFunctionDeclaration n = false) (hoist body)
     = filter (fun n => isFunctionDeclaration n = false) body
  /\ Block_hook (Block_hook n) = Block_hook n.
Proof.
  destruct (filter_declarations_hoist body) as [Htop Hbottom].
  repeat apply conj; [exact Htop | exact Hbottom |].
  assert (Hh : forall b, hoist (hoist b) = hoist b).
  { intros b. destruct (filter_declarations_hoist b) as [Ht Hb].
    unfold hoist at 1. rewrite Ht, Hb. reflexivity. }
  destruct n; try reflexivity; cbn [Block_hook]; rewrite Hh; reflexivity.
Qed.

(** X9.  The [Program] hook is idempotent on a body without empty entries,
    and never leaves a program that had statements without any. *)
Theorem Program_hook_idempotent (body : list node) :
  Forall (fun s => s <> Null) body ->
  Program_hook (Program_hook (Program body)) = Program_hook (Program body)
  /\ (body <> [] -> Program_hook (Program body) <> Program []).
Proof.
  intros Hnn. pose proof (fold_twice body Hnn) as Htwice.
  unfold Program_hook at 2 3 4.
  destruct (toMultipleSequenceExpressions body) as [|x l] eqn:E.
  - split; [|congruence]. unfold Program_hook. rewrite E. reflexivity.
  - split; [|discriminate]. unfold Program_hook. rewrite Htwice. reflexivity.
Qed.

(** On [a; b; return] both hold. *)
Lemma Program_hook_idempotent_witness :
  let body :=
    [ExpressionStatement (Identifier "a"); ExpressionStatement (Identifier "b");
     ReturnStatement Null] in
  Program_hook (Program_hook (Program body)) = Program_hook (Program body)
  /\ (body <> [] -> Program_hook (Program body) <> Program []).
Proof.
  intros body. apply (Program_hook_idempotent body). repeat constructor; discriminate.
Defined.

(** X10.  What the [BlockStatement] hook returns is never an empty block; for
    the body of a function, the block of a [try] and the body of a [catch]
    it is a block or nothing; and when it is a bare statement, the block's
    statements folded to that one statement. *)
Theorem BlockStatement_hook_result (p : path) :
  let r := BlockStatement_hook p in
  r <> BlockStatement []
  /\ ((isFunction (parent p) && String.eqb (field p) "body")
      || isTryStatement (parent p) || isCatchClause (parent p) = true ->
      r = Null \/ isBlockStatement r = true)
  /\ (r <> Null -> isBlockStatement r = false ->
      exists body, nodeAt p = BlockStatement body
                   /\ toMultipleSequenceExpressions body = [r]).
Proof.
  intros r. subst r. unfold BlockStatement_hook.
  destruct (nodeAt p) as [| | | | | | | | | | | | | | | | | | | | | | body | | | | |];
    try (repeat apply conj; [discriminate | intros _; left; reflexivity | congruence]).
  pose proof (fold_shape body) as Hshape.
  destruct (toMultipleSequenceExpressions body) as [|first rest] eqn:E.
  - repeat apply conj; [discriminate | intros _; left; reflexivity | congruence].
  - destruct rest as [|second rest].
    + cbn [length]. rewrite bool_decide_eq_false_2 by lia. cbn [orb].
      destruct ((isFunction (parent p) && String.eqb (field p) "body")
                || isTryStatement (parent p) || isCatchClause (parent p)) eqn:Hmust.
      * repeat apply conj; [discriminate | intros _; right; reflexivity | discriminate].
      * repeat apply conj.
        -- apply Forall_cons in Hshape as [[(Hb & _) | (e & -> & _)] _]; [|discriminate].
           intros ->. discriminate Hb.
        -- discriminate.
        -- intros _ _. exists body. split; [reflexivity | exact E].
    + cbn [length]. rewrite bool_decide_eq_true_2 by lia. cbn [orb].
      repeat apply conj; [discriminate | intros _; right; reflexivity | discriminate].
Qed.

(** The body of [function f() { a; }] stays a block. *)
Lemma BlockStatement_hook_result_witness :
  let body := BlockStatement [ExpressionStatement (Identifier "a")] in
  let p := Path [body] 0 false [FunctionDeclaration (Identifier "f") [] body] false "body" in
  BlockStatement_hook p = Null \/ isBlockStatement (BlockStatement_hook p) = true.
Proof.
  intros body p. apply (proj1 (proj2 (BlockStatement_hook_result p))). reflexivity.
Defined.

(** ** What the rewrites do to values *)

Lemma strictOperators_negating : negatingOperators strictOperators.
Proof. intros a b. split; reflexivity. Qed.

(** X11.  The negation flip keeps the value of a conditional expression:
    with [!==] and [!=] the negations of [===] and [==], the flipped
    expression evaluates to what the original evaluates to, in every
    environment. *)
Theorem flipNegation_preserves_value
  (binary : string -> value -> value -> option value) (env : string -> value) (n : node) :
  negatingOperators binary ->
  evaluateWith binary env (flipNegation n) = evaluateWith binary env n.
Proof.
  intros Hneg. destruct n; try reflexivity; cbn [flipNegation].
  - (* ConditionalExpression *)
    unfold flipNegationFields.
    destruct (negb (truthy n2) || negb (truthy n3)); [reflexivity|].
    destruct n1; try reflexivity.
    + destruct (String.eqb_spec operator "!") as [-> | _]; [|reflexivity].
      cbn [evaluateWith String.eqb Ascii.eqb Bool.eqb].
      destruct (evaluateWith binary env n1) as [v|]; [|reflexivity].
      cbn [mbind option_bind toBoolean]. destruct (toBoolean v); reflexivity.
    + destruct (String.eqb_spec operator "!==") as [-> | _];
        [| destruct (String.eqb_spec operator "!=") as [-> | _]; [|reflexivity]];
        cbn [evaluateWith];
        (destruct (evaluateWith binary env n1_1) as [a|]; [|reflexivity]);
        (destruct (evaluateWith binary env n1_2) as [b|]; [|reflexivity]);
        cbn [mbind option_bind]; destruct (Hneg a b) as [Hs Hl]; rewrite ?Hs, ?Hl.
      * destruct (binary "===" a b) as [w|]; [|reflexivity].
        cbn [negation fmap option_fmap option_map mbind option_bind toBoolean].
        destruct (toBoolean w); reflexivity.
      * destruct (binary "==" a b) as [w|]; [|reflexivity].
        cbn [negation fmap option_fmap option_map mbind option_bind toBoolean].
        destruct (toBoolean w); reflexivity.
  - (* IfStatement *)
    destruct (flipNegationFields n1 n2 n3) as [[t c] a]. reflexivity.
Qed.

(** [x !== 1 ? a : b] and its flip [x === 1 ? b : a] agree where [x] is 2. *)
Lemma flipNegation_preserves_value_witness :
  let n :=
    ConditionalExpression
      (BinaryExpression "!==" (Identifier "x") (Literal (LNumber 1)))
      (Identifier "a") (Identifier "b") in
  let env := fun name => if String.eqb name "x" then VNumber 2 else VString name in
  evaluateWith strictOperators env (flipNegation n) = evaluateWith strictOperators env n.
Proof.
  intros n env.
  apply (flipNegation_preserves_value strictOperators env n strictOperators_negating).
Defined.

(** X12.  The hook on literals keeps the value: [!0] and [!1] evaluate to
    [true] and [false], the values of the literals they replace; and the hook
    replaces nothing but boolean literals. *)
Theorem Literal_hook_keeps_value (env : string -> value) :
  (forall b, evaluate env (Literal_hook (Literal (LBoolean b)))
             = evaluate env (Literal (LBoolean b)))
  /\ (forall n, (forall b, n <> Literal (LBoolean b)) -> Literal_hook n = Null).
Proof.
  split.
  - intros []; reflexivity.
  - intros n Hn. destruct n; try reflexivity.
    match goal with |- Literal_hook (Literal ?v) = _ => destruct v end; try reflexivity.
    exfalso. eapply Hn. reflexivity.
Qed.

(** X13.  What the rewrite of [!x && b] to [x || b] does to the value: where
    [x] is falsy both are the value of [b]; where [x] is truthy the original
    is [false] and the rewritten expression is the value of [x]. *)
Theorem LogicalExpression_hook_value
  (env : string -> value) (x b : node) (prefix : option bool) (v : value) :
  evaluate env x = Some v ->
  let original := LogicalExpression "&&" (UnaryExpression "!" x prefix) b in
  (toBoolean v = false ->
   evaluate env (LogicalExpression_hook original) = evaluate env original
   /\ evaluate env original = evaluate env b)
  /\ (toBoolean v = true ->
      evaluate env original = Some (VBoolean false)
      /\ evaluate env (LogicalExpression_hook original) = Some v).
Proof.
  intros Hx original. subst original.
  cbn [LogicalExpression_hook isUnaryExpressionWith argument_of String.eqb Ascii.eqb
         Bool.eqb andb evaluate].
  rewrite Hx. cbn [mbind option_bind toBoolean].
  split; intros Hv; rewrite Hv; cbn [negb]; split; reflexivity.
Qed.

(** With [x] the number 1, [!x && b] is [false] and [x || b] is 1. *)
Lemma LogicalExpression_hook_value_witness :
  let env := fun name => if String.eqb name "x" then VNumber 1 else VNumber 2 in
  let original :=
    LogicalExpression "&&" (UnaryExpression "!" (Identifier "x") (Some true))
                      (Identifier "b") in
  evaluate env original = Some (VBoolean false)
  /\ evaluate env (LogicalExpression_hook original) = Some (VNumber 1).
Proof.
  intros env original.
  apply (LogicalExpression_hook_value env (Identifier "x") (Identifier "b") (Some true)
           (VNumber 1) eq_refl); reflexivity.
Defined.

(** X14.  The test as [IfStatement.exit[2]] inverts it is true exactly where
    the original test is false (with [!==] and [!=] the negations of [===]
    and [==]). *)
Theorem invertTest_negates
  (binary : string -> value -> value -> option value) (env : string -> value) (test : node) :
  negatingOperators binary ->
  toBoolean <$> evaluateWith binary env (invertTest test)
  = (fun v => negb (toBoolean v)) <$> evaluateWith binary env test.
Proof.
  intros Hneg.
  assert (Hnot : forall t,
             toBoolean <$> evaluateWith binary env (UnaryExpression "!" t None)
             = (fun v => negb (toBoolean v)) <$> evaluateWith binary env t).
  { intros t. cbn [evaluateWith String.eqb Ascii.eqb Bool.eqb].
    destruct (evaluateWith binary env t); reflexivity. }
  destruct test; try apply Hnot; cbn [invertTest].
  - destruct (String.eqb_spec operator "!") as [-> | _]; [|apply Hnot].
    cbn [evaluateWith String.eqb Ascii.eqb Bool.eqb].
    destruct (evaluateWith binary env test) as [v|]; [|reflexivity].
    cbn [mbind option_bind fmap option_fmap option_map toBoolean].
    rewrite negb_involutive. reflexivity.
  - destruct (String.eqb_spec operator "!==") as [-> | _];
      [| destruct (String.eqb_spec operator "!=") as [-> | _]; [|apply Hnot]];
      cbn [evaluateWith];
      (destruct (evaluateWith binary env test1) as [a|]; [|reflexivity]);
      (destruct (evaluateWith binary env test2) as [b|]; [|reflexivity]);
      cbn [mbind option_bind]; destruct (Hneg a b) as [Hs Hl]; rewrite ?Hs, ?Hl.
    + destruct (binary "===" a b) as [w|]; [|reflexivity].
      cbn [negation fmap option_fmap option_map toBoolean].
      rewrite negb_involutive. reflexivity.
    + destruct (binary "==" a b) as [w|]; [|reflexivity].
      cbn [negation fmap option_fmap option_map toBoolean].
      rewrite negb_involutive. reflexivity.
Qed.

(** [x !== 1] inverted is [x === 1], false where [x] is 2. *)
Lemma invertTest_negates_witness :
  let test := BinaryExpression "!==" (Identifier "x") (Literal (LNumber 1)) in
  let env := fun name => if String.eqb name "x" then VNumber 2 else VString name in
  toBoolean <$> evaluateWith strictOperators env (invertTest test)
  = (fun v => negb (toBoolean v)) <$> evaluateWith strictOperators env test.
Proof.
  intros test env.
  apply (invertTest_negates strictOperators env test strictOperators_negating).
Defined.

(** ** Hooks applied again *)

(** X15.  Four of the hooks that edit their node are idempotent: the rewrite
    of [!a && b], the loosening of a strict comparison, and the two rewrites
    of a string key to an identifier leave their own result alone. *)
Theorem local_hooks_idempotent
  (isValidIdentifier : string -> bool) (baseTypeStrictlyMatches : node -> node -> bool)
  (n : node) :
  LogicalExpression_hook (LogicalExpression_hook n) = LogicalExpression_hook n
  /\ BinaryExpression_enter_1 baseTypeStrictlyMatches
       (BinaryExpression_enter_1 baseTypeStrictlyMatches n)
     = BinaryExpression_enter_1 baseTypeStrictlyMatches n
  /\ Property_exit isValidIdentifier (Property_exit isValidIdentifier n)
     = Property_exit isValidIdentifier n
  /\ MemberExpression_exit isValidIdentifier (MemberExpression_exit isValidIdentifier n)
     = MemberExpression_exit isValidIdentifier n.
Proof.
  repeat apply conj.
  - destruct n; try reflexivity. cbn [LogicalExpression_hook].
    destruct (String.eqb operator "&&" && isUnaryExpressionWith "!" n1) eqn:E.
    + reflexivity.
    + cbn [LogicalExpression_hook]. rewrite E. reflexivity.
  - destruct n; try reflexivity. cbn [BinaryExpression_enter_1].
    destruct (String.eqb_spec operator "===") as [-> | H1];
      [| destruct (String.eqb_spec operator "!==") as [-> | H2]]; cbn [negb andb].
    + destruct (baseTypeStrictlyMatches n1 n2) eqn:E; [reflexivity|].
      cbn [BinaryExpression_enter_1 String.eqb Ascii.eqb Bool.eqb negb andb].
      rewrite E. reflexivity.
    + destruct (baseTypeStrictlyMatches n1 n2) eqn:E; [reflexivity|].
      cbn [BinaryExpression_enter_1 String.eqb Ascii.eqb Bool.eqb negb andb].
      rewrite E. reflexivity.
    + cbn [BinaryExpression_enter_1].
      apply String.eqb_neq in H1, H2. rewrite H1, H2. reflexivity.
  - destruct n; try reflexivity. cbn [Property_exit].
    destruct (literalIdentifier isValidIdentifier n1) as [s|] eqn:E.
    + reflexivity.
    + cbn [Property_exit]. rewrite E. reflexivity.
  - destruct n; try reflexivity. cbn [MemberExpression_exit].
    destruct computed; [|reflexivity].
    destruct (literalIdentifier isValidIdentifier n2) as [s|] eqn:E.
    + reflexivity.
    + cbn [MemberExpression_exit]. rewrite E. reflexivity.
Qed.

(** X16.  The two enter hooks of a binary expression commute when the type
    test gives the same answer for the operands in either order: flipping
    then loosening is loosening then flipping. *)
Theorem flip_and_loosen_commute
  (isPure : node -> bool) (baseTypeStrictlyMatches : node -> node -> bool)
  (operator : string) (l r : node) :
  baseTypeStrictlyMatches l r = baseTypeStrictlyMatches r l ->
  BinaryExpression_enter_1 baseTypeStrictlyMatches
    (BinaryExpression_enter_0 isPure (BinaryExpression operator l r))
  = BinaryExpression_enter_0 isPure
      (BinaryExpression_enter_1 baseTypeStrictlyMatches (BinaryExpression operator l r)).
Proof.
  intros Hsym. cbn [BinaryExpression_enter_0 BinaryExpression_enter_1].
  destruct (String.eqb_spec operator "===") as [-> | H1];
    [| destruct (String.eqb_spec operator "!==") as [-> | H2]]; cbn [negb andb].
  - cbn [isEqualityOperator EQUALITY_BINARY_OPERATORS existsb String.eqb Ascii.eqb
           Bool.eqb orb andb].
    destruct (isPure r) eqn:Hp, (baseTypeStrictlyMatches l r) eqn:E; rewrite <- ?Hsym;
      cbn; rewrite <- ?Hsym, ?E, ?Hp; cbn; rewrite <- ?Hsym, ?E, ?Hp; reflexivity.
  - cbn [isEqualityOperator EQUALITY_BINARY_OPERATORS existsb String.eqb Ascii.eqb
           Bool.eqb orb andb].
    destruct (isPure r) eqn:Hp, (baseTypeStrictlyMatches l r) eqn:E; rewrite <- ?Hsym;
      cbn; rewrite <- ?Hsym, ?E, ?Hp; cbn; rewrite <- ?Hsym, ?E, ?Hp; reflexivity.
  - apply String.eqb_neq in H1, H2.
    cbn [BinaryExpression_enter_0].
    destruct (isEqualityOperator operator && isPure r);
      cbn [BinaryExpression_enter_1]; rewrite H1, H2; reflexivity.
Qed.

(** [x === 1] with nothing known about the types, either way round. *)
Lemma flip_and_loosen_commute_witness :
  let n := BinaryExpression "===" (Identifier "x") (Literal (LNumber 1)) in
  BinaryExpression_enter_1 (fun _ _ => true) (BinaryExpression_enter_0 literalsArePure n)
  = BinaryExpression_enter_0 literalsArePure (BinaryExpression_enter_1 (fun _ _ => true) n).
Proof.
  intros n.
  apply (flip_and_loosen_commute literalsArePure (fun _ _ => true) "==="
           (Identifier "x") (Literal (LNumber 1))).
  reflexivity.
Defined.

(** ** Declarations, loops and what stands before them *)

(** The loop of [VariableDeclaration.enter[0]] on a run of declarations of
    the same kind followed by something else. *)
Lemma absorbSiblings_run (kind : string) (declarations : list node)
  (run : list (list node)) (rest : list node) :
  (forall ds, head rest <> Some (VariableDeclaration kind ds)) ->
  absorbSiblings kind declarations (map (VariableDeclaration kind) run ++ rest)
  = (declarations ++ concat run, rest).
Proof.
  intros Hrest. revert declarations.
  induction run as [|ds run IH]; intros declarations.
  - cbn [map app concat]. rewrite app_nil_r.
    destruct rest as [|x rest']; [reflexivity|].
    destruct x; try reflexivity. cbn [absorbSiblings].
    destruct (String.eqb_spec kind0 kind) as [-> | _]; [|reflexivity].
    exfalso. eapply Hrest. reflexivity.
  - cbn [map app concat absorbSiblings]. rewrite String.eqb_refl, IH, app_assoc.
    reflexivity.
Qed.

Lemma declaration_absorbs_run_aux
  (before rest above : list node) (kind field : string) (declarations : list node)
  (run : list (list node)) :
  (forall ds, head rest <> Some (VariableDeclaration kind ds)) ->
  VariableDeclaration_enter_0
    (Path (before ++ VariableDeclaration kind declarations
                  :: map (VariableDeclaration kind) run ++ rest)
          (length before) true above false field)
  = nothing (Path (before ++ VariableDeclaration kind (declarations ++ concat run) :: rest)
                  (length before) true above false field).
Proof.
  intros Hrest. unfold VariableDeclaration_enter_0, nodeAt.
  cbn [container key inList negb]. rewrite lookup_at. cbn [from_option id].
  rewrite drop_after, (absorbSiblings_run _ _ _ _ Hrest), take_app_length.
  reflexivity.
Qed.

(** X18.  The first enter hook of a declaration takes in the whole run of
    declarations of its kind that follows it, up to the first statement that
    is not one: their declarators are appended in order and the run leaves
    the list. *)
Theorem declaration_absorbs_run
  (before rest above : list node) (kind field : string) (declarations : list node)
  (run : list (list node)) :
  (forall ds, head rest <> Some (VariableDeclaration kind ds)) ->
  let p :=
    Path (before ++ VariableDeclaration kind declarations
                 :: map (VariableDeclaration kind) run ++ rest)
         (length before) true above false field in
  VariableDeclaration_enter_0 p
  = nothing (Path (before ++ VariableDeclaration kind (declarations ++ concat run) :: rest)
                  (length before) true above false field).
Proof. intros Hrest p. apply declaration_absorbs_run_aux, Hrest. Qed.

(** [var a; var b; var c; d;] becomes [var a, b, c; d;]. *)
Lemma declaration_absorbs_run_witness :
  let d := fun x => [VariableDeclarator (Identifier x) Null] in
  let rest := [ExpressionStatement (Identifier "d")] in
  VariableDeclaration_enter_0
    (Path (VariableDeclaration "var" (d "a")
             :: map (VariableDeclaration "var") [d "b"; d "c"] ++ rest)
          0 true [] false "body")
  = nothing (Path (VariableDeclaration "var" (d "a" ++ concat [d "b"; d "c"]) :: rest)
                  0 true [] false "body").
Proof.
  intros d rest.
  apply (declaration_absorbs_run [] rest [] "var" "body" (d "a") [d "b"; d "c"]).
  intros ds. discriminate.
Defined.

(** X19.  The two enter hooks of a declaration, one after the other, in front
    of a loop whose [init] declares with the same kind: the run of
    declarations and the loop become one loop, whose [init] holds all the
    declarators in their order, and the declaration is removed. *)
Theorem declarations_merge_into_for
  (before rest above : list node) (kind field : string) (declarations declarations' : list node)
  (run : list (list node)) (test update body : node) :
  let loop := ForStatement (VariableDeclaration kind declarations') test update body in
  let p :=
    Path (before ++ VariableDeclaration kind declarations
                 :: map (VariableDeclaration kind) run ++ loop :: rest)
         (length before) true above false field in
  let p' := after (VariableDeclaration_enter_1 (after (VariableDeclaration_enter_0 p))) in
  container p'
  = before ++ ForStatement
                (VariableDeclaration kind (declarations ++ concat run ++ declarations'))
                test update body :: rest
  /\ key p' = length before
  /\ removed p' = true.
Proof.
  intros loop p p'. subst p' p.
  rewrite (declaration_absorbs_run_aux before (loop :: rest) above kind field declarations run)
    by (intros ds; discriminate).
  cbn [after nothing].
  unfold VariableDeclaration_enter_1, nodeAt, getSibling. subst loop.
  cbn [container key inList negb].
  rewrite lookup_at. cbn [from_option id]. rewrite lookup_next. cbn [from_option id].
  rewrite String.eqb_refl. unfold dangerouslyRemove, nothing, moved.
  cbn [after container key removed].
  rewrite insert_next, delete_at, <- app_assoc.
  repeat apply conj; [reflexivity | |].
  - destruct (decide (length before < length before)); [lia | reflexivity].
  - destruct (decide (length before = length before)); congruence.
Qed.

Lemma lookup_previous (before rest : list node) (x y : node) :
  (before ++ x :: y :: rest) !! S (length before) = Some y.
Proof. replace (S (length before)) with (length before + 1) by lia. apply lookup_next. Qed.

Lemma replace_and_remove_previous
  (before rest above : list node) (name : string) (x y z : node) :
  dangerouslyRemove (length before)
    (setNode (Path (before ++ x :: y :: rest) (S (length before)) true above false name) z)
  = Path (before ++ z :: rest) (length before) true above false name.
Proof.
  unfold dangerouslyRemove, setNode, moved.
  cbn [container key inList ancestors removed field].
  replace (S (length before)) with (length before + 1) by lia.
  rewrite insert_next, delete_at.
  destruct (decide (length before < length before + 1)); [|lia].
  destruct (decide (length before = length before + 1)); [lia|].
  replace (pred (length before + 1)) with (length before) by lia. reflexivity.
Qed.

(** X20.  The second enter hook of a [for] statement, right after an
    expression statement [e;]: the statement leaves the list and [e] becomes
    the loop's [init], or is put in front of it with a comma when the loop
    has an expression there already; a loop whose [init] is a declaration
    takes nothing. *)
Theorem for_takes_previous_expression
  (before rest above : list node) (field : string) (e init test update body : node) :
  let p :=
    Path (before ++ ExpressionStatement e :: ForStatement init test update body :: rest)
         (S (length before)) true above false field in
  let merged := fun init' =>
    nothing (Path (before ++ ForStatement init' test update body :: rest)
                  (length before) true above false field) in
  (init = Null -> For_enter_1 p = merged e)
  /\ (isExpression init = true -> isSequenceExpression e = false ->
      For_enter_1 p = merged (SequenceExpression [e; init]))
  /\ (isExpression init = true -> forall expressions, e = SequenceExpression expressions ->
      For_enter_1 p = merged (SequenceExpression (expressions ++ [init])))
  /\ (init <> Null -> isExpression init = false -> For_enter_1 p = nothing p).
Proof.
  intros p merged.
  assert (Hnode : nodeAt p = ForStatement init test update body)
    by (unfold nodeAt; subst p; cbn [container key]; rewrite lookup_previous; reflexivity).
  assert (Hprev : getPrevSibling p = ExpressionStatement e)
    by (unfold getPrevSibling, getSibling; subst p; cbn [container key];
        rewrite lookup_at; reflexivity).
  assert (Hexpr : forall n, isExpression n = true -> truthy n = true)
    by (intros []; intros H; try discriminate H; reflexivity).
  assert (Hmerge : forall z, dangerouslyRemove (pred (key p)) (setNode p z)
                             = Path (before ++ z :: rest) (length before) true above false field)
    by (intros z; apply replace_and_remove_previous).
  unfold For_enter_1. rewrite Hnode. unfold takePrevious. rewrite Hprev.
  replace (inList p) with true by reflexivity. cbn [negb orb].
  repeat apply conj.
  - intros ->. cbn [truthy andb]. rewrite Hmerge. reflexivity.
  - intros Hi He. rewrite Hi, (Hexpr _ Hi). cbn [negb andb]. rewrite Hmerge.
    destruct e; try discriminate He; reflexivity.
  - intros Hi expressions ->. rewrite Hi, (Hexpr _ Hi). cbn [negb andb]. rewrite Hmerge.
    reflexivity.
  - intros Hn Hi. rewrite Hi.
    destruct init; [congruence | reflexivity ..].
Qed.

(** [i = 0; for (; i < n;) f();] becomes [for (i = 0; i < n;) f();]. *)
Lemma for_takes_previous_expression_witness :
  let e := OtherExpression "AssignmentExpression" [Identifier "i"; Literal (LNumber 0)] in
  let test := BinaryExpression "<" (Identifier "i") (Identifier "n") in
  let body := ExpressionStatement (CallExpression (Identifier "f") []) in
  For_enter_1
    (Path [ExpressionStatement e; ForStatement Null test Null body] 1 true [] false "body")
  = nothing (Path [ForStatement e test Null body] 0 true [] false "body").
Proof.
  intros e test body.
  apply (for_takes_previous_expression [] [] [] "body" e Null test Null body).
  reflexivity.
Defined.


(** X27.  The second hook of [For] on a [for]-[in] or [for]-[of] loop
    right after an expression statement or a declaration: the node has no
    [init], so the hook writes the expression, or the whole declaration, to
    the [init] property of the loop and removes the statement from the list;
    [left], [right] and [body] of the loop are what they were. *)
Theorem for_in_takes_previous
  (before rest above : list node) (name : string) (prev l r body : node) :
  isExpressionStatement prev || isVariableDeclaration prev = true ->
  let taken := match prev with ExpressionStatement e => e | _ => prev end in
  let at_loop := fun loop =>
    Path (before ++ prev :: loop :: rest) (S (length before)) true above false name in
  let left_with := fun loop =>
    nothing (Path (before ++ loop :: rest) (length before) true above false name) in
  For_enter_1 (at_loop (ForInStatement l r body Null))
  = left_with (ForInStatement l r body taken)
  /\ For_enter_1 (at_loop (ForOfStatement l r body Null))
     = left_with (ForOfStatement l r body taken).
Proof.
  intros Hprev taken at_loop left_with. subst taken at_loop left_with.
  split; unfold For_enter_1, nodeAt; cbn [container key];
    rewrite lookup_previous; cbn [from_option id];
    unfold takePrevious, getPrevSibling, getSibling; cbn [container key inList];
    rewrite lookup_at; cbn [from_option id truthy negb andb orb pred];
    destruct prev; try discriminate Hprev; cbn [truthy negb];
    rewrite replace_and_remove_previous; reflexivity.
Qed.

(** [a(); for (k in o) f();]: the list is left with the loop alone, and
    [a()] is the loop's [init]. *)
Lemma for_in_takes_previous_witness :
  let a := CallExpression (Identifier "a") [] in
  let f := ExpressionStatement (CallExpression (Identifier "f") []) in
  let k := Identifier "k" in
  let o := Identifier "o" in
  For_enter_1 (Path [ExpressionStatement a; ForInStatement k o f Null] 1 true [] false "body")
  = nothing (Path [ForInStatement k o f a] 0 true [] false "body").
Proof.
  intros a f k o.
  apply (for_in_takes_previous [] [] [] "body" (ExpressionStatement a) k o f).
  reflexivity.
Defined.

(** ** More of the [if] cascade *)

Lemma lookup_next_next_none (before : list node) (x y : node) :
  (before ++ [x; y]) !! (length before + 2) = None.
Proof.
  induction before as [|b before IH]; [reflexivity | exact IH].
Qed.

(** X21.  An [if] without alternate whose consequent is an expression
    statement: where the statement is not a completion record the first exit
    hook returns the expression statement [test && e;]; where it is one, the
    hook returns nothing and leaves the [if] as it is. *)
Theorem guarded_expression
  (isCompletionRecord : path -> bool) (before rest above : list node) (inList : bool)
  (field : string) (test e : node) :
  let p :=
    Path (before ++ IfStatement test (ExpressionStatement e) Null :: rest)
         (length before) inList above false field in
  (isCompletionRecord p = false ->
   IfStatement_exit_0 isCompletionRecord p
   = returning p (ExpressionStatement (LogicalExpression "&&" test e)))
  /\ (isCompletionRecord p = true -> IfStatement_exit_0 isCompletionRecord p = nothing p).
Proof.
  intros p.
  assert (E : forall b, isCompletionRecord p = b ->
            IfStatement_exit_0 isCompletionRecord p
            = if b then nothing p
              else returning p (ExpressionStatement (LogicalExpression "&&" test e))).
  { intros b Hb. unfold IfStatement_exit_0, nodeAt. subst p. cbn [container key].
    rewrite lookup_at.
    cbn [from_option id coerceIf flipNegationFields truthy negb orb andb].
    rewrite setNode_at, Hb.
    destruct b; cbn [negb isExpressionStatement isReturnStatement isBlockStatement truthy
                          andb orb expression_of]; [|reflexivity].
    rewrite !andb_false_r. reflexivity. }
  split; intros H; rewrite (E _ H); reflexivity.
Qed.

(** [if (x) f();] in the middle of a list becomes [x && f();]. *)
Lemma guarded_expression_witness :
  let f := CallExpression (Identifier "f") [] in
  let p := Path [IfStatement (Identifier "x") (ExpressionStatement f) Null;
                 ExpressionStatement (Identifier "y")] 0 true [] false "body" in
  IfStatement_exit_0 (fun _ => false) p
  = returning p (ExpressionStatement (LogicalExpression "&&" (Identifier "x") f)).
Proof.
  intros f p.
  apply (guarded_expression (fun _ => false) []
           [ExpressionStatement (Identifier "y")] [] true "body" (Identifier "x") f).
  reflexivity.
Defined.

(** X22.  [if (test) return x; return y;]: the first exit hook takes the
    following [return] out of the list and returns
    [return test ? x : y;], with [void 0] for [x] when the first [return]
    has no argument; [y] is taken as it is. *)
Theorem return_or_return
  (isCompletionRecord : path -> bool) (before rest above : list node) (field : string)
  (test x y : node) :
  let p :=
    Path (before ++ IfStatement test (ReturnStatement x) Null :: ReturnStatement y :: rest)
         (length before) true above false field in
  IfStatement_exit_0 isCompletionRecord p
  = returning
      (Path (before ++ IfStatement test (ReturnStatement x) Null :: rest)
            (length before) true above false field)
      (ReturnStatement (ConditionalExpression test (orElse x VOID_0) y)).
Proof.
  intros p. unfold IfStatement_exit_0, nodeAt. subst p. cbn [container key].
  rewrite lookup_at.
  cbn [from_option id coerceIf flipNegationFields truthy negb orb andb].
  rewrite setNode_at. unfold getSibling. cbn [container key].
  cbn [isExpressionStatement isReturnStatement truthy negb andb].
  rewrite lookup_next.
  cbn [from_option id isReturnStatement argument_of andb].
  unfold dangerouslyRemove. cbn [container key inList ancestors removed].
  rewrite delete_next.
  destruct (decide (length before + 1 < length before)); [lia|].
  destruct (decide (length before + 1 = length before)); [lia|]. reflexivity.
Qed.

(** X23.  [if (test) return x; e;] at the end of a list: the first exit hook
    takes [e;] out of the list and returns [return test ? x : void e;], or
    [return test || void e;] when the [return] has no argument.  In the latter
    case the value returned where the test is truthy is the value of the
    test. *)
Theorem return_or_last_expression
  (isCompletionRecord : path -> bool) (before above : list node) (field : string)
  (test x e : node) :
  let p :=
    Path (before ++ [IfStatement test (ReturnStatement x) Null; ExpressionStatement e])
         (length before) true above false field in
  let left := Path (before ++ [IfStatement test (ReturnStatement x) Null])
                   (length before) true above false field in
  let voided := UnaryExpression "void" e None in
  (x <> Null ->
   IfStatement_exit_0 isCompletionRecord p
   = returning left (ReturnStatement (ConditionalExpression test x voided)))
  /\ (x = Null ->
      IfStatement_exit_0 isCompletionRecord p
      = returning left (ReturnStatement (LogicalExpression "||" test voided)))
  /\ (forall env v w,
        evaluate env test = Some v -> evaluate env e = Some w ->
        evaluate env (LogicalExpression "||" test voided)
        = Some (if toBoolean v then v else VUndefined)).
Proof.
  intros p left voided.
  assert (E : IfStatement_exit_0 isCompletionRecord p
              = returning left
                  (if truthy x then ReturnStatement (ConditionalExpression test x voided)
                   else ReturnStatement (LogicalExpression "||" test voided))).
  { unfold IfStatement_exit_0, nodeAt. subst p. cbn [container key].
    rewrite lookup_at.
    cbn [from_option id coerceIf flipNegationFields truthy negb orb andb].
    rewrite setNode_at. unfold getSibling. cbn [container key].
    cbn [isExpressionStatement isReturnStatement truthy negb andb].
    rewrite lookup_next, lookup_next_next_none.
    cbn [from_option id isReturnStatement isExpressionStatement truthy negb andb
           argument_of expression_of].
    unfold dangerouslyRemove. cbn [container key inList ancestors removed].
    rewrite delete_next.
    destruct (decide (length before + 1 < length before)); [lia|].
    destruct (decide (length before + 1 = length before)); [lia|].
    destruct (truthy x); reflexivity. }
  repeat apply conj.
  - intros Hx. rewrite E. destruct x; [congruence | reflexivity ..].
  - intros ->. rewrite E. reflexivity.
  - intros env v w Hv Hw. subst voided.
    cbn [evaluate String.eqb Ascii.eqb Bool.eqb]. rewrite Hv, Hw.
    cbn [mbind option_bind]. destruct (toBoolean v); reflexivity.
Qed.

(** [if (x) return 1; f();] becomes [return x ? 1 : void f();]. *)
Lemma return_or_last_expression_witness :
  let f := CallExpression (Identifier "f") [] in
  let one := Literal (LNumber 1) in
  IfStatement_exit_0 (fun _ => false)
    (Path [IfStatement (Identifier "x") (ReturnStatement one) Null; ExpressionStatement f]
          0 true [] false "body")
  = returning
      (Path [IfStatement (Identifier "x") (ReturnStatement one) Null] 0 true [] false "body")
      (ReturnStatement
         (ConditionalExpression (Identifier "x") one (UnaryExpression "void" f None))).
Proof.
  intros f one.
  apply (return_or_last_expression (fun _ => false) [] [] "body" (Identifier "x") one f).
  discriminate.
Defined.

Lemma take_through (before rest : list node) (x : node) :
  take (S (length before)) (before ++ x :: rest) = before ++ [x].
Proof.
  rewrite cons_middle, app_assoc. apply take_app_length'.
  rewrite length_app. simpl. lia.
Qed.

Lemma lookup_after (before rest : list node) (x : node) :
  (before ++ x :: rest) !! (length before + 1) = head rest.
Proof.
  induction before as [|b before IH]; [destruct rest; reflexivity | exact IH].
Qed.

(** X24.  [if (test) c else alt] in a list, with [test'], [c'] and [alt']
    the three fields as they are after the two branches have been coerced
    and the negation flip applied.  When [alt'] is there, [c'] is a [return]
    or a block ending in one, and it is not so that [c'] and [alt'] are both
    [return]s with nothing after the [if] (the dual return), the first exit
    hook leaves [if (test') c'] without alternate, splices [alt'] in right
    after it, the body of a block statement by statement, and returns
    nothing. *)
Theorem else_after_return_is_lifted
  (isCompletionRecord : path -> bool) (before rest above : list node) (name : string)
  (test c alt test' c' alt' : node) :
  flipNegationFields test (coerceIf c) (coerceIf alt) = (test', c', alt') ->
  alt' <> Null ->
  isReturnStatement c' || (isBlockStatement c' && isReturnStatement (lastOfBlock c')) = true ->
  isReturnStatement c' && isReturnStatement alt' && negb (truthy (default Null (head rest)))
  = false ->
  IfStatement_exit_0 isCompletionRecord
    (Path (before ++ IfStatement test c alt :: rest) (length before) true above false name)
  = nothing
      (Path (before ++ IfStatement test' c' Null
               :: match alt' with BlockStatement body => body | _ => [alt'] end ++ rest)
            (length before) true above false name).
Proof.
  intros Hflip Hnull Hret Hdual.
  assert (Ht : truthy alt' = true) by (destruct alt'; [congruence | reflexivity ..]).
  assert (Hct : truthy c' = true) by (destruct c'; [discriminate Hret | reflexivity ..]).
  assert (Hce : isExpressionStatement c' = false).
  { destruct c'; try reflexivity. discriminate Hret. }
  unfold IfStatement_exit_0, nodeAt. cbn [container key].
  rewrite lookup_at. cbn [from_option id]. rewrite Hflip.
  rewrite !setNode_at. unfold getSibling. cbn [container key].
  rewrite lookup_after, Hdual. rewrite Ht, Hct, Hce, Hret.
  cbn [negb andb orb]. rewrite !andb_false_r. cbn [andb orb].
  unfold insertAfter, moved. cbn [container key inList ancestors removed field].
  rewrite take_through, drop_after, <- app_assoc. reflexivity.
Qed.

(** [if (x) { return 1; } else { f(); g(); }] followed by [h();]: the
    consequent loses its block, and the two statements of the alternate come
    between the [if] and [h();]. *)
Lemma else_after_return_is_lifted_witness :
  let call := fun name => ExpressionStatement (CallExpression (Identifier name) []) in
  let one := ReturnStatement (Literal (LNumber 1)) in
  IfStatement_exit_0 (fun _ => false)
    (Path [IfStatement (Identifier "x") (BlockStatement [one])
             (BlockStatement [call "f"; call "g"]);
           call "h"]
          0 true [] false "body")
  = nothing
      (Path [IfStatement (Identifier "x") one Null; call "f"; call "g"; call "h"]
            0 true [] false "body").
Proof.
  intros call one.
  apply (else_after_return_is_lifted (fun _ => false) [] [call "h"] [] "body"
           (Identifier "x") (BlockStatement [one]) (BlockStatement [call "f"; call "g"])
           (Identifier "x") one (BlockStatement [call "f"; call "g"]));
    [reflexivity | discriminate | reflexivity | reflexivity].
Defined.

(** X25.  [if (test) return;] in a statement list: unless the list is the
    body of a function the third exit hook does nothing.  In a function body
    it inverts the test as [invertTest] does; with nothing after the [if] the
    statement is removed, otherwise every following statement leaves the list
    and becomes the consequent, a single one as it is and several as a block,
    the [if] is left last in the list and is visited again. *)
Theorem early_return_takes_rest
  (before rest above : list node) (field : string) (test : node) :
  let p := Path (before ++ IfStatement test (ReturnStatement Null) Null :: rest)
                (length before) true above false field in
  let guarding := fun consequent =>
    Outcome (Path (before ++ [IfStatement (invertTest test) consequent Null])
                  (length before) true above false field)
            Null true in
  (isFunction (default Null (above !! 1)) = false -> IfStatement_exit_2 p = nothing p)
  /\ (isFunction (default Null (above !! 1)) = true ->
      IfStatement_exit_2 p
      = match rest with
        | [] => nothing (Path before (length before) true above true field)
        | [only] => guarding only
        | _ => guarding (BlockStatement rest)
        end).
Proof.
  intros p guarding. subst p guarding.
  unfold IfStatement_exit_2, nodeAt. cbn [container key inList ancestors].
  rewrite lookup_at. cbn [from_option id truthy isReturnStatement argument_of negb andb orb].
  split; intros ->; cbn [negb]; [reflexivity|].
  rewrite drop_after.
  assert (E : match test with
              | BinaryExpression operator l r =>
                  if String.eqb operator "!==" then BinaryExpression "===" l r
                  else if String.eqb operator "!=" then BinaryExpression "==" l r
                  else UnaryExpression "!" test None
              | UnaryExpression operator argument _ =>
                  if String.eqb operator "!" then argument
                  else UnaryExpression "!" test None
              | _ => UnaryExpression "!" test None
              end = invertTest test) by reflexivity.
  rewrite E. clear E.
  destruct rest as [|only [|second rest]].
  - rewrite setNode_at. unfold dangerouslyRemove, nothing.
    cbn [container key inList ancestors removed].
    rewrite delete_at.
    destruct (decide (length before < length before)); [lia|].
    destruct (decide (length before = length before)); [|congruence].
    rewrite app_nil_r. reflexivity.
  - unfold moved. cbn [container key inList ancestors removed].
    rewrite take_before. reflexivity.
  - unfold moved. cbn [container key inList ancestors removed].
    rewrite take_before. reflexivity.
Qed.

(** In a function body, [if (a !== b) return; f(); g();] becomes
    [if (a === b) { f(); g(); }]. *)
Lemma early_return_takes_rest_witness :
  let call := fun name => ExpressionStatement (CallExpression (Identifier name) []) in
  let above := [BlockStatement []; FunctionExpression Null [] (BlockStatement [])] in
  IfStatement_exit_2
    (Path [IfStatement (BinaryExpression "!==" (Identifier "a") (Identifier "b"))
             (ReturnStatement Null) Null; call "f"; call "g"]
          0 true above false "body")
  = Outcome
      (Path [IfStatement (BinaryExpression "===" (Identifier "a") (Identifier "b"))
               (BlockStatement [call "f"; call "g"]) Null]
            0 true above false "body")
      Null true.
Proof.
  intros call above.
  apply (early_return_takes_rest [] [call "f"; call "g"] above "body"
           (BinaryExpression "!==" (Identifier "a") (Identifier "b"))).
  reflexivity.
Defined.

(** ** The controller on an equality of pure operands *)

(** X26.  A program that is one comparison [l operator r;] with an equality
    operator and two different pure operands to which no rule applies: every
    traversal swaps the operands (and loosens a strict operator where the
    types match), so that the controller never comes to rest: however many
    turns it is given it ends at the cap, and [simplify] returns no tree. *)
Theorem equality_of_pure_operands_never_rests
  (isValidIdentifier : string -> bool) (isPure : node -> bool)
  (baseTypeStrictlyMatches : node -> node -> bool) (isCompletionRecord : path -> bool)
  (bare : phase) (fuel turns : nat) (operator : string) (l r : node) :
  quiet isPure baseTypeStrictlyMatches l = true ->
  quiet isPure baseTypeStrictlyMatches r = true ->
  height l + 3 <= fuel -> height r + 3 <= fuel ->
  isEqualityOperator operator = true ->
  isPure l = true -> isPure r = true -> l <> r ->
  let program := fun n => Program [ExpressionStatement n] in
  let traversal :=
    traverse isValidIdentifier isPure baseTypeStrictlyMatches isCompletionRecord bare fuel in
  traversal (program (BinaryExpression operator l r))
  = Some (program (BinaryExpression (loosened baseTypeStrictlyMatches operator r l) r l))
  /\ (exists last,
        drive isValidIdentifier isPure baseTypeStrictlyMatches isCompletionRecord bare
              fuel turns (program (BinaryExpression operator l r))
        = CapHit last)
  /\ simplify isValidIdentifier isPure baseTypeStrictlyMatches isCompletionRecord bare
              fuel (program (BinaryExpression operator l r))
     = None.
Proof.
  intros Hl Hr Hhl Hhr Hop Hpl Hpr Hne program traversal. subst program traversal.
  repeat apply conj.
  - rewrite traverse_comparison by assumption.
    destruct (flipAndLoosen_swaps isPure baseTypeStrictlyMatches operator l r Hop Hpr)
      as [-> _].
    reflexivity.
  - apply (drive_comparison isValidIdentifier isPure baseTypeStrictlyMatches
             isCompletionRecord bare fuel turns l r); assumption.
  - unfold simplify.
    destruct (drive_comparison isValidIdentifier isPure baseTypeStrictlyMatches
                isCompletionRecord bare fuel cap l r Hl Hr Hhl Hhr Hpl Hpr Hne operator Hop)
      as [[last ->] _].
    reflexivity.
Qed.

(** [1 === 2;], with literals pure and of one type: a traversal gives
    [2 == 1;], and the pass returns no tree. *)
Lemma equality_of_pure_operands_never_rests_witness :
  let one := Literal (LNumber 1) in
  let two := Literal (LNumber 2) in
  let program := fun n => Program [ExpressionStatement n] in
  traverse (fun _ => true) literalsArePure (fun _ _ => true) (fun _ => false) Enter 8
    (program (BinaryExpression "===" one two))
  = Some (program (BinaryExpression "==" two one))
  /\ simplify (fun _ => true) literalsArePure (fun _ _ => true) (fun _ => false) Enter 8
       (program (BinaryExpression "===" one two))
     = None.
Proof.
  intros one two program.
  assert (H48 : 4 <= 8) by lia.
  assert (Hne : one <> two) by discriminate.
  destruct (equality_of_pure_operands_never_rests (fun _ => true) literalsArePure
              (fun _ _ => true) (fun _ => false) Enter 8 cap "===" one two
              eq_refl eq_refl H48 H48 eq_refl eq_refl eq_refl Hne)
    as (H1 & _ & H3).
  split; [exact H1 | exact H3].
Defined.

